(** * Simulated service plugins of the Semantic Kernel examples

    A shallow embedding of [examples/plugins/math_plugin.py],
    [examples/plugins/weather_plugin.py] and
    [examples/plugins/database_plugin.py], together with the properties
    their specification states.

    Conventions of the embedding:
    - a Python [float] is a binary64 number, here a primitive [float];
    - a Python [int] is a [Z];
    - a Python [str] is a [string] holding ASCII text; the table keys, the
      product names and every literal of the plugins are ASCII apart from
      the symbols of a few messages, which are kept as their UTF-8 bytes;
    - a call either returns a value or raises: [result];
    - the [print] traces of the plugins write to the console only and do not
      take part in the value a call returns; they are left out. *)

From Stdlib Require Import ZArith List String Ascii Bool Lia.
From Stdlib Require Import Floats DecimalString QArith Qround.
From stdpp Require Import gmap strings.

Import ListNotations.
Set Warnings "-inexact-float".
Local Open Scope string_scope.
Local Open Scope Z_scope.

(** ** Text: the [str] methods the plugins call *)

Module Text.

Definition is_upper (c : ascii) : bool :=
  let n := nat_of_ascii c in (65 <=? n)%nat && (n <=? 90)%nat.

Definition is_lower (c : ascii) : bool :=
  let n := nat_of_ascii c in (97 <=? n)%nat && (n <=? 122)%nat.

Definition to_lower (c : ascii) : ascii :=
  if is_upper c then ascii_of_nat (nat_of_ascii c + 32) else c.

Definition to_upper (c : ascii) : ascii :=
  if is_lower c then ascii_of_nat (nat_of_ascii c - 32) else c.

(** [s.lower()] *)
Fixpoint lower (s : string) : string :=
  match s with
  | EmptyString => EmptyString
  | String c r => String (to_lower c) (lower r)
  end.

(** [s.title()]: a letter that follows a letter is lower-cased, any other
    letter is upper-cased. *)
Fixpoint title_from (prev_cased : bool) (s : string) : string :=
  match s with
  | EmptyString => EmptyString
  | String c r =>
      if is_upper c || is_lower c
      then String (if prev_cased then to_lower c else to_upper c)
                  (title_from true r)
      else String c (title_from false r)
  end.

Definition title (s : string) : string := title_from false s.

(** [needle in hay] on strings: [needle] occurs at some position. *)
Fixpoint contains (needle hay : string) : bool :=
  String.prefix needle hay
  || match hay with
     | EmptyString => false
     | String _ r => contains needle r
     end.

(** [str(n)] for an [int]. *)
Definition of_Z (n : Z) : string := NilZero.string_of_int (Z.to_int n).

(** [len(l)] rendered inside an f-string. *)
Definition of_len {A} (l : list A) : string := of_Z (Z.of_nat (List.length l)).

(** Specification side of [contains]. *)
Definition substring_of (needle hay : string) : Prop :=
  exists pre post, hay = pre +:+ needle +:+ post.

End Text.

(** ** Python values and outcomes of a call *)

Inductive exn : Type :=
| ZeroDivisionError
| OverflowError
| ValueError.

(** What a plugin function hands back: the math functions are annotated
    [float] but return a [str] on their guarded error paths, and [**] may
    produce a [complex]. *)
Inductive value : Type :=
| VFloat (x : float)
| VStr (s : string)
| VComplex (re im : float).

Inductive result (A : Type) : Type :=
| Ret (a : A)
| Raise (e : exn).

Arguments Ret {A} a.
Arguments Raise {A} e.

#[export] Instance result_ret : MRet result := fun _ a => Ret a.

#[export] Instance result_bind : MBind result := fun _ _ k r =>
  match r with
  | Ret a => k a
  | Raise e => Raise e
  end.

Definition returns {A} (r : result A) : Prop := exists a, r = Ret a.

(** ** Binary64 arithmetic as Python exposes it *)

Module PyFloat.

(** Sign, integral significand and binary exponent of a finite non-zero
    float: its value is [(-1)^s * m * 2^e]. *)
Definition decompose (x : float) : spec_float := Prim2SF x.

(** [x == floor(x)] for a finite [x]. *)
Definition is_integral (x : float) : bool :=
  match decompose x with
  | S754_zero _ => true
  | S754_finite _ m e =>
      if 0 <=? e then true else Z.pos m mod 2 ^ (- e) =? 0
  | _ => false
  end.

(** CPython's [DOUBLE_IS_ODD_INTEGER(x)], [fmod(fabs(x), 2.0) == 1.0]. *)
Definition is_odd_integer (x : float) : bool :=
  match decompose x with
  | S754_finite _ m e =>
      if 0 <? e then false
      else (Z.pos m mod 2 ^ (- e) =? 0) && Z.odd (Z.pos m / 2 ^ (- e))
  | _ => false
  end.

(** [a / b] on floats: only a zero divisor raises. *)
Definition truediv (a b : float) : result float :=
  if PrimFloat.eqb b 0 then Raise ZeroDivisionError else Ret (a / b)%float.

Definition ERANGE : Z := 34.

Section Pow.

(** The C library's [pow]: the value and the [errno] it leaves
    ([0] when it reports nothing). *)
Variable libm_pow : float -> float -> float * Z.

(** [complex.__pow__] on two real arguments, reached by a negative
    base with a fractional exponent. *)
Variable complex_pow : float -> float -> result value.

(** [_Py_ADJUST_ERANGE1] *)
Definition adjust_erange1 (x : float) (errno : Z) : Z :=
  if errno =? 0 then
    if PrimFloat.eqb x infinity || PrimFloat.eqb x neg_infinity
    then ERANGE else 0
  else if (errno =? ERANGE) && PrimFloat.eqb x 0 then 0
  else errno.

(** The tail of [float_pow]: the call into the C library. *)
Definition pow_libm (iv iw : float) (negate_result : bool) : result value :=
  let '(ix, errno) := libm_pow iv iw in
  let errno := adjust_erange1 ix errno in
  let ix := if negate_result then (- ix)%float else ix in
  if negb (errno =? 0) then
    Raise (if errno =? ERANGE then OverflowError else ValueError)
  else Ret (VFloat ix).

(** [v ** w] on floats, CPython's [float_pow]. *)
Definition pow (iv iw : float) : result value :=
  if PrimFloat.eqb iw 0 then Ret (VFloat 1)
  else if is_nan iv then Ret (VFloat iv)
  else if is_nan iw then Ret (VFloat (if PrimFloat.eqb iv 1 then 1%float else iw))
  else if is_infinity iw then
    let iv := abs iv in
    if PrimFloat.eqb iv 1 then Ret (VFloat 1)
    else if Bool.eqb (PrimFloat.ltb 0 iw) (PrimFloat.ltb 1 iv)
         then Ret (VFloat (abs iw))
         else Ret (VFloat 0)
  else if is_infinity iv then
    let iw_is_odd := is_odd_integer iw in
    if PrimFloat.ltb 0 iw
    then Ret (VFloat (if iw_is_odd then iv else abs iv))
    else Ret (VFloat (if iw_is_odd
                      then (if get_sign iv then neg_zero else zero)
                      else zero))
  else if PrimFloat.eqb iv 0 then
    let iw_is_odd := is_odd_integer iw in
    if PrimFloat.ltb iw 0 then Raise ZeroDivisionError
    else Ret (VFloat (if iw_is_odd then iv else zero))
  else if PrimFloat.ltb iv 0 then
    if negb (is_integral iw) then complex_pow iv iw
    else
      let iv := (- iv)%float in
      let negate_result := is_odd_integer iw in
      if PrimFloat.eqb iv 1
      then Ret (VFloat (if negate_result then (-1)%float else 1%float))
      else pow_libm iv iw negate_result
  else if PrimFloat.eqb iv 1 then Ret (VFloat 1)
  else pow_libm iv iw false.

End Pow.

End PyFloat.

(** ** Rendering floats: [repr] and the [.2f] format

    Both are exact: a finite float is the rational [m * 2^e], and CPython
    prints the correctly rounded decimal (round-half-even on the exact
    value), respectively the shortest decimal that reads back as the same
    float. *)

Module PyFormat.

Definition sign_text (s : bool) : string := if s then "-" else "".

Definition zeros (n : nat) : string := string_of_list_ascii (repeat "0"%char n).

Definition pad_left (width : nat) (s : string) : string :=
  zeros (width - String.length s) +:+ s.

(** The exact value of a finite float. *)
Definition Qval (m : positive) (e : Z) : Q :=
  (inject_Z (Z.pos m) * Qpower (inject_Z 2) e)%Q.

Definition pow10 (t : Z) : Q := Qpower (inject_Z 10) t.

(** Nearest integer, ties to even. *)
Definition round_half_even (y : Q) : Z :=
  let q := Qfloor y in
  match Qcompare (y - inject_Z q) (Qmake 1 2) with
  | Lt => q
  | Gt => q + 1
  | Eq => if Z.even q then q else q + 1
  end.

(** [format(x, '.<prec>f')] *)
Definition fixed (prec : nat) (x : float) : string :=
  let frac (n : Z) :=
    match prec with
    | O => ""
    | _ => "." +:+ pad_left prec (Text.of_Z n)
    end in
  match Prim2SF x with
  | S754_nan => "nan"
  | S754_infinity s => sign_text s +:+ "inf"
  | S754_zero s => sign_text s +:+ "0" +:+ frac 0
  | S754_finite s m e =>
      let scale := 10 ^ Z.of_nat prec in
      let n := round_half_even (Qval m e * inject_Z scale) in
      sign_text s +:+ Text.of_Z (n / scale) +:+ frac (n mod scale)
  end.

(** The largest [E] with [10^E <= x], searched upwards from [E]. *)
Fixpoint decimal_exponent (fuel : nat) (x : Q) (E : Z) : Z :=
  match fuel with
  | O => E
  | S fuel =>
      if Qle_bool (pow10 (E + 1)) x then decimal_exponent fuel x (E + 1)
      else E
  end.

(** The reals that round to the float [m * 2^e]: its two half-way points,
    which belong to it when [m] is even. *)
Definition rounds_to (m : positive) (e : Z) (c : Q) : bool :=
  let x := Qval m e in
  let up := Qval 1 (e - 1) in
  let down := if (Z.pos m =? 2 ^ 52) && (-1074 <? e)
              then Qval 1 (e - 2) else Qval 1 (e - 1) in
  if Z.even (Z.pos m)
  then Qle_bool (x - down) c && Qle_bool c (x + up)
  else negb (Qle_bool c (x - down)) && negb (Qle_bool (x + up) c).

(** A decimal [d * 10^t] with at most [k] digits that reads back as the
    float, the nearer one when both neighbours do. *)
Definition candidate (m : positive) (e E : Z) (k : nat) : option (Z * Z) :=
  let x := Qval m e in
  let t := E - Z.of_nat k + 1 in
  let y := (x / pow10 t)%Q in
  let dlo := Qfloor y in
  let dhi := dlo + 1 in
  let oklo := rounds_to m e (inject_Z dlo * pow10 t) in
  let okhi := rounds_to m e (inject_Z dhi * pow10 t) in
  let nearest := round_half_even y in
  if oklo && okhi then Some (nearest, t)
  else if oklo then Some (dlo, t)
  else if okhi then Some (dhi, t)
  else None.

Fixpoint shortest (m : positive) (e E : Z) (k : nat) (fuel : nat) : Z * Z :=
  match fuel with
  | O => (round_half_even (Qval m e / pow10 (E - 16)), E - 16)
  | S fuel =>
      match candidate m e E k with
      | Some dt => dt
      | None => shortest m e E (S k) fuel
      end
  end.

Fixpoint strip_zeros (fuel : nat) (d t : Z) : Z * Z :=
  match fuel with
  | O => (d, t)
  | S fuel =>
      if (d mod 10 =? 0) && negb (d =? 0) then strip_zeros fuel (d / 10) (t + 1)
      else (d, t)
  end.

Definition take (n : nat) (s : string) : string := String.substring 0 n s.
Definition drop (n : nat) (s : string) : string :=
  String.substring n (String.length s - n) s.

(** [repr(x)], CPython's [float_repr] (format code ['r']). *)
Definition repr (x : float) : string :=
  match Prim2SF x with
  | S754_nan => "nan"
  | S754_infinity s => sign_text s +:+ "inf"
  | S754_zero s => sign_text s +:+ "0.0"
  | S754_finite s m e =>
      let E := decimal_exponent 640 (Qval m e) (-324) in
      let '(d, t) := shortest m e E 1 17 in
      let '(d, t) := strip_zeros 20 d t in
      let ds := Text.of_Z d in
      let n := Z.of_nat (String.length ds) in
      let decpt := n + t in
      sign_text s +:+
      (if (decpt <=? -4) || (16 <? decpt) then
         let ex := decpt - 1 in
         take 1 ds
         +:+ (if 1 <? n then "." +:+ drop 1 ds else "")
         +:+ "e" +:+ (if ex <? 0 then "-" else "+")
         +:+ pad_left 2 (Text.of_Z (Z.abs ex))
       else if decpt <=? 0 then
         "0." +:+ zeros (Z.to_nat (- decpt)) +:+ ds
       else if n <=? decpt then
         ds +:+ zeros (Z.to_nat (decpt - n)) +:+ ".0"
       else
         take (Z.to_nat decpt) ds +:+ "." +:+ drop (Z.to_nat decpt) ds)
  end.

End PyFormat.

(** [x * n] and [x + n] with an [int] operand convert it first
    ([PyLong_AsDouble]): round to nearest, ties to even, and
    [OverflowError] beyond the largest float. *)
Definition float_of_int (n : Z) : result float :=
  match binary_normalize prec emax n 0 false with
  | S754_infinity _ => Raise OverflowError
  | sf => Ret (SF2Prim sf)
  end.

(** The builtin [sum] over floats, from its start value [0]. *)
Definition py_sum (xs : list float) : float :=
  fold_left (fun acc x => (acc + x)%float) xs 0%float.

(** The same builtin from CPython 3.12 on, which carries Neumaier's
    compensation term next to the running sum. *)
Definition py_sum_compensated (xs : list float) : float :=
  let step '(f_result, c) x :=
    let t := (f_result + x)%float in
    let c := if PrimFloat.leb (abs x) (abs f_result)
             then (c + ((f_result - t) + x))%float
             else (c + ((x - t) + f_result))%float in
    (t, c) in
  let '(f_result, c) := fold_left step xs (0%float, 0%float) in
  if negb (PrimFloat.eqb c 0) && is_finite c then (f_result + c)%float
  else f_result.

Definition nl : string := String (ascii_of_nat 10) "".

(** ** [class MathPlugin] *)

Module MathPlugin.

Section Methods.

Variable libm_pow : float -> float -> float * Z.
Variable complex_pow : float -> float -> result value.


Definition subtract (number1 number2 : float) : result value :=
  Ret (VFloat (number1 - number2)).

Definition multiply (number1 number2 : float) : result value :=
  Ret (VFloat (number1 * number2)).

Definition divide (number1 number2 : float) : result value :=
  if PrimFloat.eqb number2 0 then Ret (VStr "Error: Cannot divide by zero")
  else
    result ← PyFloat.truediv number1 number2;
    Ret (VFloat result).

Definition power (base exponent : float) : result value :=
  result ← PyFloat.pow libm_pow complex_pow base exponent;
  Ret result.

Definition square_root (number : float) : result value :=
  if PrimFloat.ltb number 0
  then Ret (VStr "Error: Cannot calculate square root of negative number")
  else
    result ← PyFloat.pow libm_pow complex_pow number 0.5;
    Ret result.

Definition percentage (part whole : float) : result value :=
  if PrimFloat.eqb whole 0
  then Ret (VStr "Error: Cannot calculate percentage with zero as whole")
  else
    quotient ← PyFloat.truediv part whole;
    Ret (VFloat (quotient * 100)).

End Methods.

End MathPlugin.

(** ** [class DatabasePlugin] *)

Module DatabasePlugin.

Record product : Type := {
  p_id : Z;
  p_name : string;
  p_price : float;
  p_stock : Z;
  p_category : string
}.

Record order : Type := {
  o_id : Z;
  o_user_id : Z;
  o_product_id : Z;
  o_quantity : Z;
  o_status : string
}.

Definition _products : list product := [
  {| p_id := 101; p_name := "Laptop"; p_price := 999.99; p_stock := 15; p_category := "Electronics" |};
  {| p_id := 102; p_name := "Mouse"; p_price := 29.99; p_stock := 50; p_category := "Electronics" |};
  {| p_id := 103; p_name := "Keyboard"; p_price := 79.99; p_stock := 30; p_category := "Electronics" |};
  {| p_id := 104; p_name := "Monitor"; p_price := 299.99; p_stock := 8; p_category := "Electronics" |};
  {| p_id := 105; p_name := "Desk Chair"; p_price := 199.99; p_stock := 12; p_category := "Furniture" |};
  {| p_id := 106; p_name := "Desk"; p_price := 399.99; p_stock := 5; p_category := "Furniture" |}
].

Definition _orders : list order := [
  {| o_id := 1001; o_user_id := 1; o_product_id := 101; o_quantity := 1; o_status := "Delivered" |};
  {| o_id := 1002; o_user_id := 2; o_product_id := 102; o_quantity := 2; o_status := "Shipped" |};
  {| o_id := 1003; o_user_id := 1; o_product_id := 104; o_quantity := 1; o_status := "Processing" |};
  {| o_id := 1004; o_user_id := 4; o_product_id := 105; o_quantity := 3; o_status := "Delivered" |}
].

Section Methods.

(** The class attributes the methods read through [self]. *)
Variable products : list product.
Variable orders : list order.

(** [next((p for p in self._products if p["id"] == product_id), None)] *)
Definition find_product (product_id : Z) : option product :=
  List.find (fun p => p_id p =? product_id) products.

(** The line one matching product adds to the result. *)
Definition product_line (p : product) : string :=
  "ID: " +:+ Text.of_Z (p_id p) +:+ ", Name: " +:+ p_name p
  +:+ ", Price: $" +:+ PyFormat.repr (p_price p)
  +:+ ", Stock: " +:+ Text.of_Z (p_stock p) +:+ nl.

Definition search_products (query : string) : string :=
  let query_lower := Text.lower query in
  let matching_products :=
    List.filter
      (fun p => Text.contains query_lower (Text.lower (p_name p))
                || Text.contains query_lower (Text.lower (p_category p)))
      products in
  match matching_products with
  | [] => "No products found matching '" +:+ query +:+ "'."
  | _ =>
      fold_left (fun result p => result +:+ product_line p)
        matching_products
        ("Found " +:+ Text.of_len matching_products +:+ " product(s):" +:+ nl +:+ nl)
  end.

(** The body of the loop of [get_user_orders]. *)
Definition order_line (o : order) : string :=
  let product := find_product (o_product_id o) in
  let product_name :=
    match product with
    | Some p => p_name p
    | None => "Unknown"
    end in
  "Order ID: " +:+ Text.of_Z (o_id o) +:+ ", Product: " +:+ product_name
  +:+ ", Quantity: " +:+ Text.of_Z (o_quantity o)
  +:+ ", Status: " +:+ o_status o +:+ nl.

Definition get_user_orders (user_id : Z) : string :=
  let user_orders := List.filter (fun o => o_user_id o =? user_id) orders in
  match user_orders with
  | [] => "No orders found for user ID " +:+ Text.of_Z user_id +:+ "."
  | _ =>
      fold_left (fun result o => result +:+ order_line o)
        user_orders
        ("Orders for User ID " +:+ Text.of_Z user_id +:+ ":" +:+ nl +:+ nl)
  end.

Definition check_stock (product_id quantity : Z) : string :=
  match find_product product_id with
  | None => "Product with ID " +:+ Text.of_Z product_id +:+ " not found."
  | Some p =>
      if p_stock p >=? quantity then
        "✓ " +:+ p_name p +:+ " has " +:+ Text.of_Z (p_stock p)
        +:+ " units in stock. " +:+ Text.of_Z quantity +:+ " units available."
      else
        "✗ " +:+ p_name p +:+ " only has " +:+ Text.of_Z (p_stock p)
        +:+ " units in stock. Cannot fulfill order for "
        +:+ Text.of_Z quantity +:+ " units."
  end.

(** [p["price"] * p["stock"]] *)
Definition stock_value (p : product) : result float :=
  stock ← float_of_int (p_stock p);
  Ret (p_price p * stock)%float.

(** The generator [sum] consumes, one product after the other. *)
Fixpoint stock_values (ps : list product) : result (list float) :=
  match ps with
  | [] => Ret []
  | p :: ps =>
      v ← stock_value p;
      vs ← stock_values ps;
      Ret (v :: vs)
  end.

(** The loop building the per-product breakdown. *)
Fixpoint breakdown (ps : list product) (result_ : string) : result string :=
  match ps with
  | [] => Ret result_
  | p :: ps =>
      value ← stock_value p;
      breakdown ps
        (result_ +:+ p_name p +:+ ": " +:+ Text.of_Z (p_stock p)
         +:+ " units × $" +:+ PyFormat.repr (p_price p)
         +:+ " = $" +:+ PyFormat.fixed 2 value +:+ nl)
  end.

Definition get_total_inventory_value_with
    (sum : list float -> float) : result string :=
  values ← stock_values products;
  let total_value := sum values in
  result_ ← breakdown products ("Inventory Summary:" +:+ nl +:+ nl);
  Ret (result_ +:+ nl +:+ "Total Inventory Value: $"
       +:+ PyFormat.fixed 2 total_value).

Definition get_total_inventory_value : result string :=
  get_total_inventory_value_with py_sum.

End Methods.

(** *** The user table and the lookups by id *)

Record user : Type := {
  u_id : Z;
  u_name : string;
  u_email : string;
  u_role : string;
  u_active : bool
}.

Definition _users : list user := [
  {| u_id := 1; u_name := "Alice Johnson"; u_email := "alice@example.com"; u_role := "Admin"; u_active := true |};
  {| u_id := 2; u_name := "Bob Smith"; u_email := "bob@example.com"; u_role := "User"; u_active := true |};
  {| u_id := 3; u_name := "Charlie Brown"; u_email := "charlie@example.com"; u_role := "User"; u_active := false |};
  {| u_id := 4; u_name := "Diana Prince"; u_email := "diana@example.com"; u_role := "Manager"; u_active := true |};
  {| u_id := 5; u_name := "Eve Davis"; u_email := "eve@example.com"; u_role := "User"; u_active := true |}
].

(** [str(b)] for a [bool]. *)
Definition bool_text (b : bool) : string := if b then "True" else "False".

Section Lookups.

Variable users : list user.
Variable products : list product.

(** [next((u for u in self._users if u["id"] == user_id), None)] *)
Definition find_user (user_id : Z) : option user :=
  List.find (fun u => u_id u =? user_id) users.

Definition get_user_by_id (user_id : Z) : string :=
  match find_user user_id with
  | Some user =>
      "User ID: " +:+ Text.of_Z (u_id user) +:+ nl
      +:+ "Name: " +:+ u_name user +:+ nl
      +:+ "Email: " +:+ u_email user +:+ nl
      +:+ "Role: " +:+ u_role user +:+ nl
      +:+ "Active: " +:+ bool_text (u_active user)
  | None => "User with ID " +:+ Text.of_Z user_id +:+ " not found."
  end.

(** The line one matching user adds to the result. *)
Definition user_line (u : user) : string :=
  "ID: " +:+ Text.of_Z (u_id u) +:+ ", Name: " +:+ u_name u
  +:+ ", Email: " +:+ u_email u +:+ ", Role: " +:+ u_role u +:+ nl.

Definition get_user_by_name (name : string) : string :=
  let name_lower := Text.lower name in
  let matching_users :=
    List.filter (fun u => Text.contains name_lower (Text.lower (u_name u)))
      users in
  match matching_users with
  | [] => "No users found matching '" +:+ name +:+ "'."
  | _ =>
      fold_left (fun result u => result +:+ user_line u)
        matching_users
        ("Found " +:+ Text.of_len matching_users +:+ " user(s):" +:+ nl +:+ nl)
  end.

Definition get_product_by_id (product_id : Z) : string :=
  match find_product products product_id with
  | Some product =>
      "Product ID: " +:+ Text.of_Z (p_id product) +:+ nl
      +:+ "Name: " +:+ p_name product +:+ nl
      +:+ "Price: $" +:+ PyFormat.repr (p_price product) +:+ nl
      +:+ "Stock: " +:+ Text.of_Z (p_stock product) +:+ " units" +:+ nl
      +:+ "Category: " +:+ p_category product
  | None => "Product with ID " +:+ Text.of_Z product_id +:+ " not found."
  end.

End Lookups.

End DatabasePlugin.

(** ** The [random] module

    The generator is a stream of raw draws and a cursor. [_randbelow n]
    yields each member of [range(n)] for some draw and nothing else, which
    is all the plugins rely on. *)

Module Random.

Record rng : Type := { draws : nat -> N; cursor : nat }.

Definition randbelow (n : Z) (g : rng) : Z * rng :=
  (Z.of_N (draws g (cursor g)) mod n,
   {| draws := draws g; cursor := S (cursor g) |}).

(** [random.randint(a, b)] *)
Definition randint (a b : Z) (g : rng) : Z * rng :=
  let '(r, g) := randbelow (b - a + 1) g in (a + r, g).

(** [random.choice(seq)] for a non-empty list of strings. *)
Definition choice (seq : list string) (g : rng) : string * rng :=
  let '(i, g) := randbelow (Z.of_nat (List.length seq)) g in
  (nth (Z.to_nat i) seq "", g).

End Random.

(** ** [class WeatherPlugin] *)

Module WeatherPlugin.

Record weather : Type := { temp : Z; condition : string; humidity : Z }.

Definition _weather_data : gmap string weather :=
  list_to_map [
    ("new york", {| temp := 72; condition := "Partly Cloudy"; humidity := 65 |});
    ("london", {| temp := 59; condition := "Rainy"; humidity := 80 |});
    ("tokyo", {| temp := 68; condition := "Sunny"; humidity := 55 |});
    ("paris", {| temp := 64; condition := "Cloudy"; humidity := 70 |});
    ("sydney", {| temp := 77; condition := "Sunny"; humidity := 60 |});
    ("mumbai", {| temp := 86; condition := "Humid"; humidity := 85 |});
    ("dubai", {| temp := 95; condition := "Hot and Sunny"; humidity := 45 |})
  ].

(** The list [conditions] of [get_current_weather]. *)
Definition conditions : list string :=
  ["Sunny"; "Cloudy"; "Rainy"; "Partly Cloudy"].

(** The f-string both branches of [get_current_weather] fill in. *)
Definition weather_report (city : string) (temp : Z) (condition : string)
    (humidity : Z) : string :=
  "Weather in " +:+ Text.title city +:+ ":" +:+ nl
  +:+ "Temperature: " +:+ Text.of_Z temp +:+ "°F" +:+ nl
  +:+ "Condition: " +:+ condition +:+ nl
  +:+ "Humidity: " +:+ Text.of_Z humidity +:+ "%".

Section Methods.

Variable weather_data : gmap string weather.

Definition get_current_weather (city : string) (g : Random.rng)
    : string * Random.rng :=
  let city_lower := Text.lower city in
  match weather_data !! city_lower with
  | Some weather =>
      (weather_report city (temp weather) (condition weather)
         (humidity weather), g)
  | None =>
      let '(temp, g) := Random.randint 50 90 g in
      let '(condition, g) := Random.choice conditions g in
      let '(humidity, g) := Random.randint 40 90 g in
      (weather_report city temp condition humidity, g)
  end.

Definition compare_weather (city1 city2 : string) (g : Random.rng)
    : string * Random.rng :=
  let '(weather1, g) := get_current_weather city1 g in
  let '(weather2, g) := get_current_weather city2 g in
  ("Weather Comparison:" +:+ nl +:+ nl +:+ weather1 +:+ nl +:+ nl
   +:+ "vs" +:+ nl +:+ nl +:+ weather2, g).

Definition should_bring_umbrella (city : string) : string :=
  let city_lower := Text.lower city in
  match weather_data !! city_lower with
  | Some weather =>
      let condition_ := Text.lower (condition weather) in
      if Text.contains "rain" condition_ || Text.contains "storm" condition_
      then "Yes, bring an umbrella! It's " +:+ condition weather
           +:+ " in " +:+ Text.title city +:+ "."
      else "No umbrella needed. It's " +:+ condition weather
           +:+ " in " +:+ Text.title city +:+ "."
  | None =>
      "Weather data not available for " +:+ city
      +:+ ", but it's always good to be prepared!"
  end.

End Methods.

(** *** The forecast *)

(** The list [conditions] of [get_forecast]. *)
Definition forecast_conditions : list string :=
  ["Sunny"; "Cloudy"; "Rainy"; "Partly Cloudy"; "Stormy"].

(** The f-string of one day of the forecast. *)
Definition day_line (day temp_high temp_low : Z) (condition : string) : string :=
  "Day " +:+ Text.of_Z day +:+ ": High " +:+ Text.of_Z temp_high
  +:+ "°F, Low " +:+ Text.of_Z temp_low +:+ "°F - " +:+ condition +:+ nl.

(** The body of the loop of [get_forecast]. *)
Definition forecast_day (state : string * Random.rng) (day : Z)
    : string * Random.rng :=
  let '(forecast, g) := state in
  let '(temp_high, g) := Random.randint 65 85 g in
  let '(temp_low, g) := Random.randint 50 65 g in
  let '(condition, g) := Random.choice forecast_conditions g in
  (forecast +:+ day_line day temp_high temp_low condition, g).

Definition get_forecast (city : string) (g : Random.rng) : string * Random.rng :=
  let forecast := "3-Day Forecast for " +:+ Text.title city +:+ ":" +:+ nl in
  fold_left forecast_day [1; 2; 3] (forecast, g).

End WeatherPlugin.

(** ** Data for the examples *)

(** A C library whose [pow] is exact at the exponent one half. *)
Definition libm_sqrt (x y : float) : float * Z := (PrimFloat.sqrt x, 0).

Definition no_complex (x y : float) : result value := Raise ValueError.

(** Text given line by line. *)
Definition unlines (ls : list string) : string := String.concat nl ls.

(** An order table with a row whose product is not in [_products]. *)
Definition dangling_orders : list DatabasePlugin.order := [
  {| DatabasePlugin.o_id := 2001; DatabasePlugin.o_user_id := 7;
     DatabasePlugin.o_product_id := 104; DatabasePlugin.o_quantity := 1;
     DatabasePlugin.o_status := "Shipped" |};
  {| DatabasePlugin.o_id := 2002; DatabasePlugin.o_user_id := 7;
     DatabasePlugin.o_product_id := 999; DatabasePlugin.o_quantity := 2;
     DatabasePlugin.o_status := "Processing" |}
].

(** A generator for the examples. *)
Definition sample_rng : Random.rng :=
  {| Random.draws := fun i => N.of_nat (37 * i + 5); Random.cursor := 0 |}.

(** ** The texts the properties speak of *)

(** The two answers of [check_stock] for a known product. *)
Definition in_stock_text (p : DatabasePlugin.product) (quantity : Z) : string :=
  "✓ " +:+ DatabasePlugin.p_name p +:+ " has "
  +:+ Text.of_Z (DatabasePlugin.p_stock p)
  +:+ " units in stock. " +:+ Text.of_Z quantity +:+ " units available.".

Definition short_stock_text (p : DatabasePlugin.product) (quantity : Z) : string :=
  "✗ " +:+ DatabasePlugin.p_name p +:+ " only has "
  +:+ Text.of_Z (DatabasePlugin.p_stock p)
  +:+ " units in stock. Cannot fulfill order for "
  +:+ Text.of_Z quantity +:+ " units.".

(** The products [search_products] keeps. *)
Definition matches (query : string) (p : DatabasePlugin.product) : bool :=
  Text.contains (Text.lower query) (Text.lower (DatabasePlugin.p_name p))
  || Text.contains (Text.lower query) (Text.lower (DatabasePlugin.p_category p)).

(** The two answers of [should_bring_umbrella] for a known city. *)
Definition umbrella_text (city : string) (w : WeatherPlugin.weather) : string :=
  "Yes, bring an umbrella! It's " +:+ WeatherPlugin.condition w
  +:+ " in " +:+ Text.title city +:+ ".".

Definition no_umbrella_text (city : string) (w : WeatherPlugin.weather) : string :=
  "No umbrella needed. It's " +:+ WeatherPlugin.condition w
  +:+ " in " +:+ Text.title city +:+ ".".

(** The card [get_user_by_id] prints for a user. *)
Definition user_card (u : DatabasePlugin.user) : string :=
  "User ID: " +:+ Text.of_Z (DatabasePlugin.u_id u) +:+ nl
  +:+ "Name: " +:+ DatabasePlugin.u_name u +:+ nl
  +:+ "Email: " +:+ DatabasePlugin.u_email u +:+ nl
  +:+ "Role: " +:+ DatabasePlugin.u_role u +:+ nl
  +:+ "Active: " +:+ DatabasePlugin.bool_text (DatabasePlugin.u_active u).

(** The card [get_product_by_id] prints for a product. *)
Definition product_card (p : DatabasePlugin.product) : string :=
  "Product ID: " +:+ Text.of_Z (DatabasePlugin.p_id p) +:+ nl
  +:+ "Name: " +:+ DatabasePlugin.p_name p +:+ nl
  +:+ "Price: $" +:+ PyFormat.repr (DatabasePlugin.p_price p) +:+ nl
  +:+ "Stock: " +:+ Text.of_Z (DatabasePlugin.p_stock p) +:+ " units" +:+ nl
  +:+ "Category: " +:+ DatabasePlugin.p_category p.

(** The users [get_user_by_name] keeps. *)
Definition name_matches (name : string) (u : DatabasePlugin.user) : bool :=
  Text.contains (Text.lower name) (Text.lower (DatabasePlugin.u_name u)).

(** The text [should_bring_umbrella] returns for a city it does not know. *)
Definition unknown_city_text (city : string) : string :=
  "Weather data not available for " +:+ city
  +:+ ", but it's always good to be prepared!".

(** How many of two cities a weather table lacks. *)
Definition unknown_count (weather_data : gmap string WeatherPlugin.weather)
    (city1 city2 : string) : nat :=
  let missing (city : string) : nat :=
    match weather_data !! Text.lower city with
    | Some _ => 0%nat
    | None => 1%nat
    end in
  (missing city1 + missing city2)%nat.

(** A product whose stock no float can hold. *)
Definition oversized_product : DatabasePlugin.product :=
  {| DatabasePlugin.p_id := 900; DatabasePlugin.p_name := "Sand";
     DatabasePlugin.p_price := 0.01; DatabasePlugin.p_stock := 2 ^ 1024;
     DatabasePlugin.p_category := "Bulk" |}.

(** The line [get_total_inventory_value] prints for a product whose stock
    is worth [value]. *)
Definition breakdown_line (pv : DatabasePlugin.product * float) : string :=
  let '(p, value) := pv in
  DatabasePlugin.p_name p +:+ ": " +:+ Text.of_Z (DatabasePlugin.p_stock p)
  +:+ " units × $" +:+ PyFormat.repr (DatabasePlugin.p_price p)
  +:+ " = $" +:+ PyFormat.fixed 2 value +:+ nl.

(** A small product table for the examples. *)
Definition two_products : list DatabasePlugin.product := [
  {| DatabasePlugin.p_id := 1; DatabasePlugin.p_name := "Pen";
     DatabasePlugin.p_price := 1.5; DatabasePlugin.p_stock := 4;
     DatabasePlugin.p_category := "Office" |};
  {| DatabasePlugin.p_id := 2; DatabasePlugin.p_name := "Ink";
     DatabasePlugin.p_price := 0.25; DatabasePlugin.p_stock := 0;
     DatabasePlugin.p_category := "Office" |}
].

(** What one day of a forecast may show. *)
Definition day_ok (temp_high temp_low : Z) (condition : string) : Prop :=
  65 <= temp_high <= 85 /\ 50 <= temp_low <= 65
  /\ In condition WeatherPlugin.forecast_conditions.

(** The generator [n] draws further on. *)
Definition advance (n : nat) (g : Random.rng) : Random.rng :=
  {| Random.draws := Random.draws g; Random.cursor := (n + Random.cursor g)%nat |}.

(** A weather table with a record filed under a capitalised key. *)
Definition capitalised_table : gmap string WeatherPlugin.weather :=
  <["Oslo" := {| WeatherPlugin.temp := 41; WeatherPlugin.condition := "Snowy";
                 WeatherPlugin.humidity := 75 |}]> WeatherPlugin._weather_data.

(** * Properties *)

(** ** Text *)

Example lower_London : Text.lower "London" = "london".
Proof. reflexivity. Qed.

Example title_new_york : Text.title "new yORK" = "New York".
Proof. reflexivity. Qed.

Example of_Z_negative : Text.of_Z (-15) = "-15".
Proof. reflexivity. Qed.

Lemma append_cons (x : ascii) (a b : string) :
  String x a +:+ b = String x (a +:+ b).
Proof. reflexivity. Qed.

Lemma append_nil_l (a : string) : "" +:+ a = a.
Proof. reflexivity. Qed.

Lemma append_assoc (a b c : string) : (a +:+ b) +:+ c = a +:+ (b +:+ c).
Proof.
  induction a as [|x a IH]; [reflexivity |].
  now rewrite !append_cons, IH.
Qed.

Lemma append_nil_r (a : string) : a +:+ "" = a.
Proof.
  induction a as [|x a IH]; [reflexivity |].
  now rewrite append_cons, IH.
Qed.

Lemma prefix_app (a b : string) :
  String.prefix a b = true <-> exists post, b = a +:+ post.
Proof.
  revert a. induction b as [|y b IH]; intros [|x a]; cbn [String.prefix].
  - split; [exists ""; reflexivity | reflexivity].
  - split; [discriminate | intros [post H]; discriminate].
  - split; [intros _; eexists; reflexivity | reflexivity].
  - destruct (ascii_dec x y) as [->|Hne].
    + rewrite IH. split; intros [post H]; exists post.
      * now rewrite append_cons, H.
      * rewrite append_cons in H. now inversion H.
    + split; [discriminate |].
      intros [post H]. rewrite append_cons in H. inversion H. congruence.
Qed.

Lemma contains_here (needle hay : string) :
  String.prefix needle hay = true -> Text.contains needle hay = true.
Proof. intros H. destruct hay; cbn [Text.contains]; now rewrite H. Qed.

Lemma contains_substring (needle hay : string) :
  Text.contains needle hay = true <-> Text.substring_of needle hay.
Proof.
  split.
  - induction hay as [|c hay IH]; cbn [Text.contains].
    + rewrite orb_false_r. intros H. apply prefix_app in H as [post H].
      exists "", post. exact H.
    + intros H. apply orb_prop in H as [H|H].
      * apply prefix_app in H as [post H]. exists "", post. exact H.
      * destruct (IH H) as (pre & post & ->). exists (String c pre), post.
        reflexivity.
  - intros (pre & post & ->). induction pre as [|c pre IH].
    + apply contains_here, prefix_app. exists post. reflexivity.
    + rewrite append_cons. cbn [Text.contains]. rewrite IH. apply orb_true_r.
Qed.

Lemma contains_empty (hay : string) : Text.contains "" hay = true.
Proof. apply contains_substring. exists "", hay. reflexivity. Qed.

(** A loop that appends one piece per item yields the start text followed
    by the pieces in order. *)
Lemma fold_left_append {A} (f : A -> string) (l : list A) (init : string) :
  fold_left (fun result x => result +:+ f x) l init
  = init +:+ String.concat "" (map f l).
Proof.
  revert init. induction l as [|x l IH]; intros init.
  - cbn. now rewrite append_nil_r.
  - cbn [fold_left map]. rewrite IH, append_assoc. f_equal.
    destruct l as [|y l]; cbn [map String.concat];
      [now rewrite append_nil_r | reflexivity].
Qed.

(** ** Outcomes *)

Lemma bind_ret_r {A} (r : result A) : (x ← r; Ret x) = r.
Proof. destruct r; reflexivity. Qed.

(** ** Float comparisons *)

Lemma leb_zero_not_ltb (n : float) :
  PrimFloat.leb 0 n = true -> PrimFloat.ltb n 0 = false.
Proof.
  rewrite leb_spec, ltb_spec.
  change (Prim2SF 0) with (S754_zero false).
  destruct (Prim2SF n) as [s|s| |s m e]; try destruct s; cbn; congruence.
Qed.

Lemma ltb_zero_not_leb (n : float) :
  PrimFloat.ltb n 0 = true -> PrimFloat.leb 0 n = false.
Proof.
  rewrite leb_spec, ltb_spec.
  change (Prim2SF 0) with (S754_zero false).
  destruct (Prim2SF n) as [s|s| |s m e]; try destruct s; cbn; congruence.
Qed.

(** ** MathPlugin *)

Section MathProperties.

Variable libm_pow : float -> float -> float * Z.
Variable complex_pow : float -> float -> result value.

(** The guard of [divide] covers every divisor on which [/] raises, the
    negative zero included. *)
Lemma divide_returns (a b : float) : returns (MathPlugin.divide a b).
Proof.
  unfold MathPlugin.divide, PyFloat.truediv, returns.
  destruct (PrimFloat.eqb b 0); cbn; eauto.
Qed.

Lemma percentage_returns (a b : float) : returns (MathPlugin.percentage a b).
Proof.
  unfold MathPlugin.percentage, PyFloat.truediv, returns.
  destruct (PrimFloat.eqb b 0); cbn; eauto.
Qed.

Example divide_by_negative_zero :
  MathPlugin.divide 1 (-0) = Ret (VStr "Error: Cannot divide by zero").
Proof. reflexivity. Qed.

Example divide_ten_by_four : MathPlugin.divide 10 4 = Ret (VFloat 2.5).
Proof. reflexivity. Qed.

Example percentage_quarter : MathPlugin.percentage 1 4 = Ret (VFloat 25).
Proof. reflexivity. Qed.

(** C1: for every float [x], [divide(x, 0)] and [percentage(x, 0)] return
    their error text and do not raise; for every divisor [b] with
    [b != 0], [divide(a, b)] returns [a / b] and [percentage(a, b)]
    returns [(a / b) * 100]. *)
Theorem divide_percentage_spec (x a b : float) :
  MathPlugin.divide x 0 = Ret (VStr "Error: Cannot divide by zero")
  /\ MathPlugin.percentage x 0
     = Ret (VStr "Error: Cannot calculate percentage with zero as whole")
  /\ (PrimFloat.eqb b 0 = false ->
      MathPlugin.divide a b = Ret (VFloat (a / b))
      /\ MathPlugin.percentage a b = Ret (VFloat (a / b * 100))).
Proof.
  split; [reflexivity |]. split; [reflexivity |].
  intros Hb. unfold MathPlugin.divide, MathPlugin.percentage, PyFloat.truediv.
  rewrite Hb. split; reflexivity.
Qed.

(** C2, at the input that breaks it: a zero base with a negative exponent
    makes [**] raise [ZeroDivisionError], and [power] has no guard, so the
    exception leaves the function. *)
Theorem power_zero_negative_raises :
  MathPlugin.power libm_pow complex_pow 0 (-1) = Raise ZeroDivisionError.
Proof. reflexivity. Qed.

(** The same for the negative zero and any finite negative exponent that
    the table of special cases lets through. *)
Example power_negative_zero_raises :
  MathPlugin.power libm_pow complex_pow (-0) (-0.5) = Raise ZeroDivisionError.
Proof. reflexivity. Qed.

(** An overflow reported by the C library leaves [power] as an
    [OverflowError]. *)
Lemma power_overflow_raises (base exponent : float) :
  PyFloat.pow libm_pow complex_pow base exponent
    = PyFloat.pow_libm libm_pow base exponent false ->
  libm_pow base exponent = (infinity, 0) ->
  MathPlugin.power libm_pow complex_pow base exponent = Raise OverflowError.
Proof.
  intros Hpow Hlibm. unfold MathPlugin.power. rewrite bind_ret_r, Hpow.
  unfold PyFloat.pow_libm. now rewrite Hlibm.
Qed.

(** Where [**] does return, [power] returns the same value. *)
Lemma power_is_pow (base exponent : float) :
  MathPlugin.power libm_pow complex_pow base exponent
  = PyFloat.pow libm_pow complex_pow base exponent.
Proof. apply bind_ret_r. Qed.

(** On a non-negative argument [n ** 0.5] is one of the special cases of
    [**], which return, or the C library's [pow(n, 0.5)]; it is never the
    zero-division error nor a complex number. *)
Lemma pow_half_nonneg (n : float) :
  PrimFloat.leb 0 n = true ->
  (exists r, PyFloat.pow libm_pow complex_pow n 0.5 = Ret (VFloat r))
  \/ PyFloat.pow libm_pow complex_pow n 0.5
     = PyFloat.pow_libm libm_pow n 0.5 false.
Proof.
  intros Hn. apply leb_zero_not_ltb in Hn.
  unfold PyFloat.pow.
  change (PrimFloat.eqb 0.5 0) with false.
  change (is_nan 0.5) with false.
  change (is_infinity 0.5) with false.
  change (PrimFloat.ltb 0.5 0) with false.
  change (PrimFloat.ltb 0 0.5) with true.
  rewrite Hn. cbv iota zeta.
  destruct (is_nan n); [left; eauto |].
  destruct (is_infinity n); [left; eauto |].
  destruct (PrimFloat.eqb n 0); [left; eauto |].
  destruct (PrimFloat.eqb n 1); [left; eauto | right; reflexivity].
Qed.

(** C3: for every [n < 0], [square_root(n)] returns its error text and
    does not raise; for every [n >= 0] it returns [n ** 0.5], a float
    whenever the C library reports no range error for that call. *)
Theorem square_root_spec (n : float) :
  (PrimFloat.ltb n 0 = true ->
   MathPlugin.square_root libm_pow complex_pow n
   = Ret (VStr "Error: Cannot calculate square root of negative number"))
  /\ (PrimFloat.leb 0 n = true ->
      MathPlugin.square_root libm_pow complex_pow n
      = PyFloat.pow libm_pow complex_pow n 0.5)
  /\ (PrimFloat.leb 0 n = true ->
      PyFloat.adjust_erange1 (fst (libm_pow n 0.5)) (snd (libm_pow n 0.5)) = 0 ->
      exists r, MathPlugin.square_root libm_pow complex_pow n = Ret (VFloat r)).
Proof.
  unfold MathPlugin.square_root. repeat split.
  - intros ->. reflexivity.
  - intros Hn. rewrite (leb_zero_not_ltb _ Hn). apply bind_ret_r.
  - intros Hn Herr. rewrite (leb_zero_not_ltb _ Hn), bind_ret_r.
    destruct (pow_half_nonneg n Hn) as [H | ->]; [exact H |].
    unfold PyFloat.pow_libm. destruct (libm_pow n 0.5) as [ix errno].
    cbn [fst snd] in Herr. rewrite Herr. cbn. eauto.
Qed.

End MathProperties.

Lemma divide_percentage_spec_witness :
  PrimFloat.eqb 4 0 = false
  /\ MathPlugin.divide 7 0 = Ret (VStr "Error: Cannot divide by zero")
  /\ MathPlugin.percentage 7 0
     = Ret (VStr "Error: Cannot calculate percentage with zero as whole")
  /\ MathPlugin.divide 10 4 = Ret (VFloat 2.5)
  /\ MathPlugin.percentage 1 4 = Ret (VFloat 25).
Proof.
  destruct (divide_percentage_spec 7 10 4) as (Hd & Hp & H).
  destruct (divide_percentage_spec 7 1 4) as (_ & _ & H').
  split; [reflexivity |]. split; [exact Hd |]. split; [exact Hp |].
  split; [apply H | apply H']; reflexivity.
Defined.

Lemma square_root_spec_witness :
  PrimFloat.ltb (-4) 0 = true
  /\ PrimFloat.leb 0 9 = true
  /\ PyFloat.adjust_erange1 (fst (libm_sqrt 9 0.5)) (snd (libm_sqrt 9 0.5)) = 0
  /\ MathPlugin.square_root libm_sqrt no_complex (-4)
     = Ret (VStr "Error: Cannot calculate square root of negative number")
  /\ MathPlugin.square_root libm_sqrt no_complex 9
     = PyFloat.pow libm_sqrt no_complex 9 0.5
  /\ exists r, MathPlugin.square_root libm_sqrt no_complex 9 = Ret (VFloat r).
Proof.
  destruct (square_root_spec libm_sqrt no_complex (-4)) as (Hneg & _ & _).
  destruct (square_root_spec libm_sqrt no_complex 9) as (_ & Hpow & Hret).
  split; [reflexivity |]. split; [reflexivity |]. split; [reflexivity |].
  split; [apply Hneg; reflexivity |].
  split; [apply Hpow; reflexivity | apply Hret; reflexivity].
Defined.

Example square_root_nine :
  MathPlugin.square_root libm_sqrt no_complex 9 = Ret (VFloat 3).
Proof. reflexivity. Qed.

(** ** DatabasePlugin *)

Section DatabaseProperties.

Import DatabasePlugin.

Variable products : list product.
Variable orders : list order.

Lemma find_product_some (product_id : Z) (p : product) :
  find_product products product_id = Some p ->
  In p products /\ p_id p = product_id.
Proof.
  unfold find_product. intros H. apply find_some in H as [Hin Hid].
  split; [exact Hin | now apply Z.eqb_eq].
Qed.

Lemma find_product_none (product_id : Z) :
  (forall p, In p products -> p_id p <> product_id) ->
  find_product products product_id = None.
Proof.
  intros Hno. unfold find_product.
  destruct (List.find _ products) as [p|] eqn:H; [| reflexivity].
  apply find_some in H as [Hin Hid]. apply Z.eqb_eq in Hid.
  now destruct (Hno p Hin).
Qed.

(** C6: for every [user_id], [get_user_orders] selects the rows of the
    order table with that [user_id] and reports each through its product,
    found by [product_id]; a row whose [product_id] is in no row of the
    product table is reported under the name "Unknown" and the call still
    returns its text. *)
Theorem get_user_orders_spec (user_id : Z) :
  let user_orders := List.filter (fun o => o_user_id o =? user_id) orders in
  (forall o, In o user_orders <-> In o orders /\ o_user_id o = user_id)
  /\ (user_orders = [] ->
      get_user_orders products orders user_id
      = "No orders found for user ID " +:+ Text.of_Z user_id +:+ ".")
  /\ (user_orders <> [] ->
      get_user_orders products orders user_id
      = ("Orders for User ID " +:+ Text.of_Z user_id +:+ ":" +:+ nl +:+ nl)
        +:+ String.concat "" (map (order_line products) user_orders))
  /\ (forall o p,
        find_product products (o_product_id o) = Some p ->
        In p products /\ p_id p = o_product_id o
        /\ order_line products o
           = "Order ID: " +:+ Text.of_Z (o_id o) +:+ ", Product: " +:+ p_name p
             +:+ ", Quantity: " +:+ Text.of_Z (o_quantity o)
             +:+ ", Status: " +:+ o_status o +:+ nl)
  /\ (forall o,
        (forall p, In p products -> p_id p <> o_product_id o) ->
        order_line products o
        = "Order ID: " +:+ Text.of_Z (o_id o) +:+ ", Product: Unknown"
          +:+ ", Quantity: " +:+ Text.of_Z (o_quantity o)
          +:+ ", Status: " +:+ o_status o +:+ nl).
Proof.
  intros user_orders. repeat apply conj.
  - intros o. unfold user_orders. rewrite filter_In, Z.eqb_eq. reflexivity.
  - intros Hnone. unfold get_user_orders. fold user_orders. now rewrite Hnone.
  - intros Hsome. unfold get_user_orders. fold user_orders.
    destruct user_orders as [|o rest] eqn:Huo; [contradiction |].
    apply fold_left_append.
  - intros o p Hfind. destruct (find_product_some _ _ Hfind) as [Hin Hid].
    repeat split; try assumption.
    unfold order_line. now rewrite Hfind.
  - intros o Hno. unfold order_line. rewrite (find_product_none _ Hno).
    reflexivity.
Qed.

Lemma stock_texts_differ (p : product) (q : Z) :
  in_stock_text p q <> short_stock_text p q.
Proof.
  unfold in_stock_text, short_stock_text.
  rewrite !append_cons. intros H. discriminate H.
Qed.

Lemma check_stock_known (product_id quantity : Z) (p : product) :
  find_product products product_id = Some p ->
  check_stock products product_id quantity
  = if quantity <=? p_stock p then in_stock_text p quantity
    else short_stock_text p quantity.
Proof.
  intros Hfind. unfold check_stock. rewrite Hfind.
  rewrite Z.geb_leb. reflexivity.
Qed.

Lemma search_products_matching (query : string) :
  List.filter (matches query) products <> [] ->
  search_products products query
  = ("Found " +:+ Text.of_len (List.filter (matches query) products)
     +:+ " product(s):" +:+ nl +:+ nl)
    +:+ String.concat "" (map product_line (List.filter (matches query) products)).
Proof.
  intros Hsome. unfold search_products.
  change (fun p => Text.contains (Text.lower query) (Text.lower (p_name p))
                   || Text.contains (Text.lower query) (Text.lower (p_category p)))
    with (matches query).
  destruct (List.filter (matches query) products) as [|p rest] eqn:Hf;
    [contradiction |].
  apply fold_left_append.
Qed.

Lemma filter_all {A} (f : A -> bool) (l : list A) :
  (forall x, In x l -> f x = true) -> List.filter f l = l.
Proof.
  induction l as [|x l IH]; intros Hall; [reflexivity |].
  cbn [List.filter]. rewrite (Hall x (or_introl eq_refl)), IH; [reflexivity |].
  intros y Hy. apply Hall. now right.
Qed.

End DatabaseProperties.

Section FixedTables.

Import DatabasePlugin.

Lemma products_stock_nonneg (p : product) : In p _products -> 0 <= p_stock p.
Proof.
  intros H. repeat (destruct H as [<- | H]; [cbn; lia |]). destruct H.
Qed.

(** C4: on the fixed product table [get_total_inventory_value] lists each
    product with its [price * stock] and reports as grand total the sum
    [999.99*15 + 29.99*50 + 79.99*30 + 299.99*8 + 199.99*12 + 399.99*5]
    printed with two decimals, that is 25698.80, which is also the exact
    decimal sum. *)
Theorem total_inventory_value_fixed :
  get_total_inventory_value _products
  = Ret (unlines [
      "Inventory Summary:";
      "";
      "Laptop: 15 units × $999.99 = $14999.85";
      "Mouse: 50 units × $29.99 = $1499.50";
      "Keyboard: 30 units × $79.99 = $2399.70";
      "Monitor: 8 units × $299.99 = $2399.92";
      "Desk Chair: 12 units × $199.99 = $2399.88";
      "Desk: 5 units × $399.99 = $1999.95";
      "";
      "Total Inventory Value: $25698.80"])
  /\ stock_values _products
     = Ret [999.99 * 15; 29.99 * 50; 79.99 * 30; 299.99 * 8;
            199.99 * 12; 399.99 * 5]%float
  /\ PyFormat.fixed 2
       (999.99 * 15 + 29.99 * 50 + 79.99 * 30 + 299.99 * 8
        + 199.99 * 12 + 399.99 * 5)%float
     = "25698.80"
  /\ py_sum [999.99 * 15; 29.99 * 50; 79.99 * 30; 299.99 * 8;
             199.99 * 12; 399.99 * 5]%float
     = (999.99 * 15 + 29.99 * 50 + 79.99 * 30 + 299.99 * 8
        + 199.99 * 12 + 399.99 * 5)%float
  /\ (Qmake 99999 100 * 15 + Qmake 2999 100 * 50 + Qmake 7999 100 * 30
      + Qmake 29999 100 * 8 + Qmake 19999 100 * 12 + Qmake 39999 100 * 5
      == Qmake 2569880 100)%Q.
Proof.
  repeat apply conj; vm_compute; reflexivity.
Qed.

(** The compensated summation of later interpreters prints the same
    report. *)
Lemma total_inventory_value_compensated :
  get_total_inventory_value_with _products py_sum_compensated
  = get_total_inventory_value _products.
Proof. vm_compute. reflexivity. Qed.

(** C5: on the fixed tables [get_user_orders(1)] reports exactly the two
    orders 1001 and 1003, each with its product, quantity and status. *)
Theorem get_user_orders_user_1 :
  get_user_orders _products _orders 1
  = unlines [
      "Orders for User ID 1:";
      "";
      "Order ID: 1001, Product: Laptop, Quantity: 1, Status: Delivered";
      "Order ID: 1003, Product: Monitor, Quantity: 1, Status: Processing";
      ""]
  /\ map o_id (List.filter (fun o => o_user_id o =? 1) _orders) = [1001; 1003]
  /\ List.length (List.filter (fun o => o_user_id o =? 1) _orders) = 2%nat.
Proof. repeat apply conj; vm_compute; reflexivity. Qed.

(** C9: for every product of the fixed table and every quantity,
    [check_stock] answers that the stock suffices exactly when
    [stock >= quantity]; so it does for the whole stock, and for every
    quantity that is zero or negative. *)
Theorem check_stock_spec (product_id quantity : Z) (p : product) :
  find_product _products product_id = Some p ->
  (check_stock _products product_id quantity = in_stock_text p quantity
   <-> quantity <= p_stock p)
  /\ (check_stock _products product_id quantity = short_stock_text p quantity
      <-> p_stock p < quantity)
  /\ check_stock _products product_id (p_stock p)
     = in_stock_text p (p_stock p)
  /\ (quantity <= 0 ->
      check_stock _products product_id quantity = in_stock_text p quantity).
Proof.
  intros Hfind.
  pose proof (check_stock_known _products product_id quantity p Hfind) as Hq.
  pose proof (check_stock_known _products product_id (p_stock p) p Hfind) as Hs.
  pose proof (stock_texts_differ p quantity) as Hne.
  destruct (find_product_some _ _ _ Hfind) as [Hin _].
  apply products_stock_nonneg in Hin.
  rewrite Z.leb_refl in Hs.
  destruct (Z.leb_spec quantity (p_stock p)) as [Hle | Hlt]; rewrite Hq.
  - repeat split; try (intros; assumption || lia || reflexivity).
    all: try (intros H; now destruct Hne).
  - repeat split; try (intros; assumption || lia || reflexivity).
    all: try (intros H; symmetry in H; now destruct Hne).
Qed.

(** C10: the empty query makes [search_products] list all six products of
    the fixed table after their count; and for any product table, a query
    that is, case ignored, part of every product's name or category gets
    the whole table back. *)
Theorem search_products_full_table :
  search_products _products ""
  = unlines [
      "Found 6 product(s):";
      "";
      "ID: 101, Name: Laptop, Price: $999.99, Stock: 15";
      "ID: 102, Name: Mouse, Price: $29.99, Stock: 50";
      "ID: 103, Name: Keyboard, Price: $79.99, Stock: 30";
      "ID: 104, Name: Monitor, Price: $299.99, Stock: 8";
      "ID: 105, Name: Desk Chair, Price: $199.99, Stock: 12";
      "ID: 106, Name: Desk, Price: $399.99, Stock: 5";
      ""]
  /\ (forall p, In p _products ->
        Text.substring_of "" (Text.lower (p_name p))
        /\ Text.substring_of "" (Text.lower (p_category p)))
  /\ (forall (products : list product) (query : string),
        products <> [] ->
        (forall p, In p products ->
           Text.substring_of (Text.lower query) (Text.lower (p_name p))
           \/ Text.substring_of (Text.lower query) (Text.lower (p_category p))) ->
        search_products products query
        = ("Found " +:+ Text.of_len products +:+ " product(s):" +:+ nl +:+ nl)
          +:+ String.concat "" (map product_line products)).
Proof.
  repeat apply conj.
  - vm_compute. reflexivity.
  - intros p _. split; eexists "", _; reflexivity.
  - intros products query Hne Hall.
    assert (List.filter (matches query) products = products) as Hf.
    { apply filter_all. intros p Hp. unfold matches.
      apply orb_true_iff.
      destruct (Hall p Hp) as [H | H]; [left | right];
        now apply contains_substring. }
    rewrite search_products_matching; rewrite Hf; [reflexivity | exact Hne].
Qed.

End FixedTables.

Lemma get_user_orders_spec_witness :
  List.filter (fun o => DatabasePlugin.o_user_id o =? 7) dangling_orders <> []
  /\ List.filter (fun o => DatabasePlugin.o_user_id o =? 8) dangling_orders = []
  /\ DatabasePlugin.get_user_orders DatabasePlugin._products dangling_orders 7
     = unlines [
         "Orders for User ID 7:";
         "";
         "Order ID: 2001, Product: Monitor, Quantity: 1, Status: Shipped";
         "Order ID: 2002, Product: Unknown, Quantity: 2, Status: Processing";
         ""]
  /\ DatabasePlugin.get_user_orders DatabasePlugin._products dangling_orders 8
     = "No orders found for user ID 8."
  /\ (forall o,
        In o dangling_orders ->
        DatabasePlugin.o_id o = 2002 ->
        DatabasePlugin.order_line DatabasePlugin._products o
        = "Order ID: 2002, Product: Unknown, Quantity: 2, Status: Processing" +:+ nl).
Proof.
  pose proof (get_user_orders_spec DatabasePlugin._products dangling_orders 7)
    as H7.
  pose proof (get_user_orders_spec DatabasePlugin._products dangling_orders 8)
    as H8.
  cbv zeta in H7, H8.
  destruct H7 as (_ & _ & Hsome & _ & Hunknown).
  destruct H8 as (_ & Hnone & _).
  assert (List.filter (fun o => DatabasePlugin.o_user_id o =? 7) dangling_orders
          <> []) as Hne by discriminate.
  split; [exact Hne |]. split; [reflexivity |]. split.
  - rewrite (Hsome Hne). vm_compute. reflexivity.
  - split; [exact (Hnone eq_refl) |].
    intros o [<- | [<- | []]] Hid; [discriminate Hid |].
    rewrite Hunknown; [reflexivity |].
    intros p Hp.
    repeat (destruct Hp as [<- | Hp]; [discriminate |]). destruct Hp.
Defined.

Lemma check_stock_spec_witness :
  let monitor :=
    {| DatabasePlugin.p_id := 104; DatabasePlugin.p_name := "Monitor";
       DatabasePlugin.p_price := 299.99; DatabasePlugin.p_stock := 8;
       DatabasePlugin.p_category := "Electronics" |} in
  DatabasePlugin.find_product DatabasePlugin._products 104 = Some monitor
  /\ DatabasePlugin.check_stock DatabasePlugin._products 104 8
     = "✓ Monitor has 8 units in stock. 8 units available."
  /\ DatabasePlugin.check_stock DatabasePlugin._products 104 9
     = "✗ Monitor only has 8 units in stock. Cannot fulfill order for 9 units."
  /\ DatabasePlugin.check_stock DatabasePlugin._products 104 (-3)
     = "✓ Monitor has 8 units in stock. -3 units available.".
Proof.
  intros monitor.
  assert (DatabasePlugin.find_product DatabasePlugin._products 104 = Some monitor)
    as Hfind by reflexivity.
  destruct (check_stock_spec 104 8 monitor Hfind) as (_ & _ & Hall & _).
  destruct (check_stock_spec 104 9 monitor Hfind) as (_ & Hshort & _).
  destruct (check_stock_spec 104 (-3) monitor Hfind) as (_ & _ & _ & Hneg).
  split; [exact Hfind |]. split; [exact Hall |]. split.
  - apply Hshort. cbn. lia.
  - apply Hneg. lia.
Defined.

Lemma search_products_full_table_witness :
  DatabasePlugin._products <> []
  /\ (forall p, In p DatabasePlugin._products ->
        Text.substring_of (Text.lower "NI") (Text.lower (DatabasePlugin.p_name p))
        \/ Text.substring_of (Text.lower "NI")
             (Text.lower (DatabasePlugin.p_category p)))
  /\ DatabasePlugin.search_products DatabasePlugin._products "NI"
     = DatabasePlugin.search_products DatabasePlugin._products "".
Proof.
  assert (forall p, In p DatabasePlugin._products ->
            Text.substring_of (Text.lower "NI")
              (Text.lower (DatabasePlugin.p_name p))
            \/ Text.substring_of (Text.lower "NI")
                 (Text.lower (DatabasePlugin.p_category p))) as Hall.
  { intros p Hp.
    repeat (destruct Hp as [<- | Hp];
            [right; apply contains_substring; reflexivity |]).
    destruct Hp. }
  assert (DatabasePlugin._products <> []) as Hne by discriminate.
  destruct search_products_full_table as (Hempty & _ & Hgen).
  split; [exact Hne |]. split; [exact Hall |].
  rewrite (Hgen DatabasePlugin._products "NI" Hne Hall), Hempty.
  vm_compute. reflexivity.
Defined.

(** ** The random source *)

Lemma randbelow_range (n : Z) (g : Random.rng) :
  0 < n -> 0 <= fst (Random.randbelow n g) < n.
Proof. intros Hn. cbn. apply Z.mod_pos_bound. exact Hn. Qed.

Lemma randint_range (a b : Z) (g : Random.rng) :
  a <= b -> a <= fst (Random.randint a b g) <= b.
Proof.
  intros Hab. unfold Random.randint.
  pose proof (randbelow_range (b - a + 1) g ltac:(lia)) as H.
  destruct (Random.randbelow (b - a + 1) g) as [r g']. cbn in *. lia.
Qed.

Lemma choice_in (seq : list string) (g : Random.rng) :
  seq <> [] -> In (fst (Random.choice seq g)) seq.
Proof.
  intros Hne. unfold Random.choice.
  assert (0 < Z.of_nat (List.length seq)) as Hlen
    by (destruct seq; [contradiction | cbn; lia]).
  pose proof (randbelow_range _ g Hlen) as H.
  destruct (Random.randbelow (Z.of_nat (List.length seq)) g) as [i g'].
  cbn in *. apply nth_In. lia.
Qed.

(** Every value of the range is the outcome of some draw. *)
Lemma randint_onto (a b v : Z) (g : Random.rng) :
  a <= v <= b ->
  exists draws,
    fst (Random.randint a b {| Random.draws := draws; Random.cursor := Random.cursor g |}) = v.
Proof.
  intros Hv. exists (fun _ => Z.to_N (v - a)).
  unfold Random.randint, Random.randbelow. cbn.
  rewrite Z2N.id by lia. rewrite Z.mod_small by lia. lia.
Qed.

(** ** WeatherPlugin *)

Section WeatherProperties.

Import WeatherPlugin.

Variable weather_data : gmap string weather.

Lemma conditions_nonempty : conditions <> [].
Proof. discriminate. Qed.

(** The reading made up for a city the table does not have. *)
Lemma get_current_weather_unknown (city : string) (g : Random.rng) :
  weather_data !! Text.lower city = None ->
  exists t c h g',
    get_current_weather weather_data city g = (weather_report city t c h, g')
    /\ 50 <= t <= 90 /\ In c conditions /\ 40 <= h <= 90.
Proof.
  intros Hnone. unfold get_current_weather. rewrite Hnone.
  pose proof (randint_range 50 90 g ltac:(lia)) as Ht.
  destruct (Random.randint 50 90 g) as [t g1].
  pose proof (choice_in conditions g1 conditions_nonempty) as Hc.
  destruct (Random.choice conditions g1) as [c g2].
  pose proof (randint_range 40 90 g2 ltac:(lia)) as Hh.
  destruct (Random.randint 40 90 g2) as [h g3].
  exists t, c, h, g3. cbn [fst] in *. repeat split; tauto || lia.
Qed.

(** C7: [get_current_weather] looks the city up under its lower-cased
    name and, when the table has it, reports the stored record and draws
    nothing; "London" gives 59°F, Rainy, 80%; for a city the table lacks,
    such as "Atlantis", whatever the random source yields, the reported
    temperature is in [50,90], the humidity in [40,90] and the condition
    one of the four of [conditions]. *)
Theorem get_current_weather_spec (city : string) (g : Random.rng) :
  (forall w,
     weather_data !! Text.lower city = Some w ->
     get_current_weather weather_data city g
     = (weather_report city (temp w) (condition w) (humidity w), g))
  /\ get_current_weather _weather_data "London" g
     = (unlines ["Weather in London:"; "Temperature: 59°F";
                 "Condition: Rainy"; "Humidity: 80%"], g)
  /\ _weather_data !! Text.lower "Atlantis" = None
  /\ conditions = ["Sunny"; "Cloudy"; "Rainy"; "Partly Cloudy"]
  /\ (weather_data !! Text.lower city = None ->
      exists t c h g',
        get_current_weather weather_data city g
        = (weather_report city t c h, g')
        /\ 50 <= t <= 90 /\ In c conditions /\ 40 <= h <= 90).
Proof.
  repeat apply conj.
  - intros w Hw. unfold get_current_weather. now rewrite Hw.
  - vm_compute. reflexivity.
  - vm_compute. reflexivity.
  - reflexivity.
  - apply get_current_weather_unknown.
Qed.

(** C8: for a city the table has, [should_bring_umbrella] recommends the
    umbrella exactly when the lower-cased stored condition contains "rain"
    or "storm", and otherwise says none is needed; for a city the table
    lacks it returns the fixed neutral text, which depends on the city
    name alone. *)
Theorem should_bring_umbrella_spec (city : string) :
  (forall w,
     weather_data !! Text.lower city = Some w ->
     (should_bring_umbrella weather_data city = umbrella_text city w
      <-> Text.substring_of "rain" (Text.lower (condition w))
          \/ Text.substring_of "storm" (Text.lower (condition w)))
     /\ (should_bring_umbrella weather_data city = no_umbrella_text city w
         <-> ~ (Text.substring_of "rain" (Text.lower (condition w))
                \/ Text.substring_of "storm" (Text.lower (condition w)))))
  /\ (weather_data !! Text.lower city = None ->
      should_bring_umbrella weather_data city
      = "Weather data not available for " +:+ city
        +:+ ", but it's always good to be prepared!").
Proof.
  split.
  - intros w Hw. unfold should_bring_umbrella. rewrite Hw.
    assert (umbrella_text city w <> no_umbrella_text city w) as Hne.
    { unfold umbrella_text, no_umbrella_text. rewrite !append_cons.
      intros H. discriminate H. }
    rewrite <- !contains_substring.
    destruct (Text.contains "rain" (Text.lower (condition w)));
      destruct (Text.contains "storm" (Text.lower (condition w))); cbn [orb].
    all: split; split; intros H;
      try reflexivity; try tauto; try (now destruct Hne);
      try (symmetry in H; now destruct Hne).
    all: try (exfalso; apply H; tauto).
    all: try (intros [? | ?]; discriminate).
    all: try (destruct H; discriminate).
  - intros Hnone. unfold should_bring_umbrella. now rewrite Hnone.
Qed.

End WeatherProperties.

Lemma get_current_weather_spec_witness :
  WeatherPlugin._weather_data !! Text.lower "TOKYO"
  = Some {| WeatherPlugin.temp := 68; WeatherPlugin.condition := "Sunny";
            WeatherPlugin.humidity := 55 |}
  /\ WeatherPlugin.get_current_weather WeatherPlugin._weather_data "TOKYO" sample_rng
     = (unlines ["Weather in Tokyo:"; "Temperature: 68°F";
                 "Condition: Sunny"; "Humidity: 55%"], sample_rng)
  /\ WeatherPlugin._weather_data !! Text.lower "Atlantis" = None
  /\ exists t c h g',
       WeatherPlugin.get_current_weather WeatherPlugin._weather_data "Atlantis"
         sample_rng
       = (WeatherPlugin.weather_report "Atlantis" t c h, g')
       /\ 50 <= t <= 90 /\ In c WeatherPlugin.conditions /\ 40 <= h <= 90.
Proof.
  destruct (get_current_weather_spec WeatherPlugin._weather_data "TOKYO" sample_rng)
    as (Hknown & _).
  destruct (get_current_weather_spec WeatherPlugin._weather_data "Atlantis" sample_rng)
    as (_ & _ & Hnone & _ & Hunknown).
  split; [reflexivity |]. split.
  - rewrite (Hknown _ eq_refl). reflexivity.
  - split; [exact Hnone | exact (Hunknown Hnone)].
Defined.

Example get_current_weather_atlantis :
  fst (WeatherPlugin.get_current_weather WeatherPlugin._weather_data "atlantis"
         sample_rng)
  = unlines ["Weather in Atlantis:"; "Temperature: 55°F";
             "Condition: Rainy"; "Humidity: 68%"].
Proof. vm_compute. reflexivity. Qed.

Lemma should_bring_umbrella_spec_witness :
  WeatherPlugin._weather_data !! Text.lower "London"
  = Some {| WeatherPlugin.temp := 59; WeatherPlugin.condition := "Rainy";
            WeatherPlugin.humidity := 80 |}
  /\ WeatherPlugin.should_bring_umbrella WeatherPlugin._weather_data "London"
     = "Yes, bring an umbrella! It's Rainy in London."
  /\ WeatherPlugin._weather_data !! Text.lower "tokyo"
     = Some {| WeatherPlugin.temp := 68; WeatherPlugin.condition := "Sunny";
               WeatherPlugin.humidity := 55 |}
  /\ WeatherPlugin.should_bring_umbrella WeatherPlugin._weather_data "tokyo"
     = "No umbrella needed. It's Sunny in Tokyo."
  /\ WeatherPlugin._weather_data !! Text.lower "Atlantis" = None
  /\ WeatherPlugin.should_bring_umbrella WeatherPlugin._weather_data "Atlantis"
     = "Weather data not available for Atlantis, but it's always good to be prepared!".
Proof.
  destruct (should_bring_umbrella_spec WeatherPlugin._weather_data "London")
    as (Hlondon & _).
  destruct (should_bring_umbrella_spec WeatherPlugin._weather_data "tokyo")
    as (Htokyo & _).
  destruct (should_bring_umbrella_spec WeatherPlugin._weather_data "Atlantis")
    as (_ & Hnone).
  split; [reflexivity |]. split.
  - apply (Hlondon _ eq_refl). left. exists "", "y". reflexivity.
  - split; [reflexivity |]. split.
    + apply (Htokyo _ eq_refl). intros [H | H];
        apply contains_substring in H; discriminate H.
    + split; [reflexivity |]. apply Hnone. reflexivity.
Defined.

(** On the fixed table only London calls for an umbrella. *)
Example umbrella_cities :
  map (fun city =>
         Text.contains "Yes"
           (WeatherPlugin.should_bring_umbrella WeatherPlugin._weather_data city))
    ["new york"; "london"; "tokyo"; "paris"; "sydney"; "mumbai"; "dubai"]
  = [false; true; false; false; false; false; false].
Proof. vm_compute. reflexivity. Qed.

(** * Further properties *)

(** ** Text *)

Lemma to_lower_cases (c : ascii) :
  let c' := Text.to_lower c in
  Text.to_lower c' = c'
  /\ (Text.is_upper c' || Text.is_lower c') = (Text.is_upper c || Text.is_lower c)
  /\ Text.to_upper c' = Text.to_upper c
  /\ (Text.is_upper c || Text.is_lower c = false -> c' = c).
Proof.
  destruct c as [[] [] [] [] [] [] [] []]; cbv; repeat split; congruence.
Qed.

Lemma lower_idempotent (s : string) : Text.lower (Text.lower s) = Text.lower s.
Proof.
  induction s as [|c s IH]; [reflexivity |].
  cbn [Text.lower]. rewrite IH.
  now destruct (to_lower_cases c) as (-> & _).
Qed.




(** ** Float tests read on the decomposed float *)

Lemma SFcompare_finite_refl (s : bool) (m : positive) (e : Z) :
  SFcompare (S754_finite s m e) (S754_finite s m e) = Some Eq.
Proof.
  cbn. rewrite Z.compare_refl, Pos.compare_cont_refl. now destruct s.
Qed.

Lemma is_nan_Prim2SF (x : float) :
  is_nan x = match Prim2SF x with S754_nan => true | _ => false end.
Proof.
  unfold is_nan. rewrite FloatAxioms.eqb_spec. unfold SFeqb.
  destruct (Prim2SF x) as [s|s| |s m e].
  - reflexivity.
  - now destruct s.
  - reflexivity.
  - now rewrite SFcompare_finite_refl.
Qed.

Lemma is_infinity_Prim2SF (x : float) :
  is_infinity x = match Prim2SF x with S754_infinity _ => true | _ => false end.
Proof.
  unfold is_infinity. rewrite FloatAxioms.eqb_spec, abs_spec.
  change (Prim2SF infinity) with (S754_infinity false).
  destruct (Prim2SF x) as [s|s| |s m e]; reflexivity.
Qed.

Lemma eqb_zero_Prim2SF (x : float) :
  PrimFloat.eqb x 0 = match Prim2SF x with S754_zero _ => true | _ => false end.
Proof.
  rewrite FloatAxioms.eqb_spec. change (Prim2SF 0) with (S754_zero false).
  destruct (Prim2SF x) as [s|s| |s m e]; try destruct s; reflexivity.
Qed.

Lemma ltb_zero_Prim2SF (x : float) :
  PrimFloat.ltb x 0
  = match Prim2SF x with
    | S754_infinity true | S754_finite true _ _ => true
    | _ => false
    end.
Proof.
  rewrite FloatAxioms.ltb_spec. change (Prim2SF 0) with (S754_zero false).
  destruct (Prim2SF x) as [s|s| |s m e]; try destruct s; reflexivity.
Qed.

(** ** MathPlugin, beyond the guards *)

Section MathFurther.

Variable libm_pow : float -> float -> float * Z.
Variable complex_pow : float -> float -> result value.

(** X1: [power] raises [ZeroDivisionError] for every zero base, of either
    sign, and every finite negative exponent. *)
Theorem power_zero_base_raises (base exponent : float) :
  PrimFloat.eqb base 0 = true ->
  PrimFloat.ltb exponent 0 = true ->
  is_infinity exponent = false ->
  MathPlugin.power libm_pow complex_pow base exponent = Raise ZeroDivisionError.
Proof.
  intros Hb He Hfin.
  unfold MathPlugin.power. rewrite bind_ret_r. unfold PyFloat.pow.
  rewrite Hb, He, Hfin.
  rewrite eqb_zero_Prim2SF in Hb. rewrite ltb_zero_Prim2SF in He.
  rewrite (eqb_zero_Prim2SF exponent), (is_nan_Prim2SF base),
    (is_nan_Prim2SF exponent), (is_infinity_Prim2SF base).
  destruct (Prim2SF base) as [sb|sb| |sb mb eb]; try discriminate Hb.
  destruct (Prim2SF exponent) as [se|se| |se me ee]; try discriminate He;
    reflexivity.
Qed.

(** X2: [power] returns 1.0 whenever the exponent is zero, whatever the
    base, and whenever the base is one, whatever the exponent; NaN and the
    infinities are no exception, and the C library is not called. *)
Theorem power_unit_cases (x : float) :
  MathPlugin.power libm_pow complex_pow x 0 = Ret (VFloat 1)
  /\ MathPlugin.power libm_pow complex_pow x (-0) = Ret (VFloat 1)
  /\ MathPlugin.power libm_pow complex_pow 1 x = Ret (VFloat 1).
Proof.
  split; [reflexivity |]. split; [reflexivity |].
  unfold MathPlugin.power. rewrite bind_ret_r. unfold PyFloat.pow.
  change (is_nan 1) with false. change (is_infinity 1) with false.
  change (PrimFloat.eqb 1 0) with false. change (PrimFloat.ltb 1 0) with false.
  change (PrimFloat.eqb 1 1) with true.
  change (PrimFloat.eqb (abs 1) 1) with true. cbv iota zeta.
  destruct (PrimFloat.eqb x 0); [reflexivity |].
  destruct (is_nan x); [reflexivity |].
  destruct (is_infinity x); reflexivity.
Qed.

(** X3: whatever its argument, NaN included, [square_root] neither raises
    [ZeroDivisionError] nor returns a complex number: its guard keeps [**]
    away from both. *)
Theorem square_root_no_zero_division (n : float) :
  MathPlugin.square_root libm_pow complex_pow n <> Raise ZeroDivisionError
  /\ (forall re im,
        MathPlugin.square_root libm_pow complex_pow n <> Ret (VComplex re im)).
Proof.
  unfold MathPlugin.square_root.
  destruct (PrimFloat.ltb n 0) eqn:Hn; [split; [| intros re im]; discriminate |].
  rewrite bind_ret_r. unfold PyFloat.pow.
  change (PrimFloat.eqb 0.5 0) with false.
  change (is_nan 0.5) with false.
  change (is_infinity 0.5) with false.
  change (PrimFloat.ltb 0.5 0) with false.
  rewrite Hn. cbv iota zeta.
  destruct (is_nan n); [split; [| intros re im]; discriminate |].
  destruct (is_infinity n).
  { destruct (PrimFloat.ltb 0 0.5); split; try intros re im; discriminate. }
  destruct (PrimFloat.eqb n 0); [split; [| intros re im]; discriminate |].
  destruct (PrimFloat.eqb n 1); [split; [| intros re im]; discriminate |].
  unfold PyFloat.pow_libm. destruct (libm_pow n 0.5) as [ix errno].
  destruct (negb (PyFloat.adjust_erange1 ix errno =? 0)).
  - destruct (PyFloat.adjust_erange1 ix errno =? PyFloat.ERANGE);
      split; try intros re im; discriminate.
  - split; [| intros re im]; discriminate.
Qed.

End MathFurther.

Lemma power_zero_base_raises_witness :
  PrimFloat.eqb (-0) 0 = true
  /\ PrimFloat.ltb (-2.5) 0 = true
  /\ is_infinity (-2.5) = false
  /\ MathPlugin.power libm_sqrt no_complex (-0) (-2.5) = Raise ZeroDivisionError.
Proof.
  split; [reflexivity |]. split; [reflexivity |]. split; [reflexivity |].
  apply (power_zero_base_raises libm_sqrt no_complex (-0) (-2.5)); reflexivity.
Defined.

(** ** DatabasePlugin: lookups and searches *)

Lemma concat_empty_cons (x : string) (l : list string) :
  String.concat "" (x :: l) = x +:+ String.concat "" l.
Proof. destruct l; cbn [String.concat]; [now rewrite append_nil_r | reflexivity]. Qed.

Section Keyed.

Context {A : Type} (key : A -> Z).

Lemma find_key_some (l : list A) (k : Z) (x : A) :
  List.find (fun y => key y =? k) l = Some x -> In x l /\ key x = k.
Proof.
  intros H. apply find_some in H as [Hin Hk]. split; [exact Hin | lia].
Qed.

Lemma find_key_none (l : list A) (k : Z) :
  List.find (fun y => key y =? k) l = None <-> (forall x, In x l -> key x <> k).
Proof.
  split.
  - intros H x Hx. pose proof (find_none _ _ H x Hx) as Hk. cbn in Hk. lia.
  - intros Hno. destruct (List.find _ l) as [x|] eqn:H; [| reflexivity].
    apply find_key_some in H as [Hin Hk]. now destruct (Hno x Hin).
Qed.

(** With unique keys the first row with a key is the only one. *)
Lemma find_key_unique (l : list A) (x : A) :
  List.NoDup (map key l) -> In x l -> List.find (fun y => key y =? key x) l = Some x.
Proof.
  induction l as [|y l IH]; intros Hnd Hin; [destruct Hin |].
  cbn [map] in Hnd. apply List.NoDup_cons_iff in Hnd as [Hy Hnd].
  cbn [List.find]. destruct Hin as [-> | Hin].
  - now rewrite Z.eqb_refl.
  - destruct (Z.eqb_spec (key y) (key x)) as [Heq | Hne]; [| now apply IH].
    destruct Hy. rewrite Heq. now apply in_map.
Qed.

End Keyed.

Section DatabaseFurther.

Import DatabasePlugin.

Variable users : list user.
Variable products : list product.

Lemma user_card_not_missing (u : user) (user_id : Z) :
  user_card u <> "User with ID " +:+ Text.of_Z user_id +:+ " not found.".
Proof. unfold user_card. rewrite !append_cons. intros H. discriminate H. Qed.

Lemma product_card_not_missing (p : product) (product_id : Z) :
  product_card p <> "Product with ID " +:+ Text.of_Z product_id +:+ " not found.".
Proof. unfold product_card. rewrite !append_cons. intros H. discriminate H. Qed.

(** X4: [get_user_by_id] answers "not found" exactly for the ids no user
    has; when the ids of the table are unique, the id of any user of the
    table gets that user's card. *)
Theorem get_user_by_id_spec (user_id : Z) :
  (get_user_by_id users user_id
   = "User with ID " +:+ Text.of_Z user_id +:+ " not found."
   <-> forall u, In u users -> u_id u <> user_id)
  /\ (List.NoDup (map u_id users) ->
      forall u, In u users -> get_user_by_id users (u_id u) = user_card u).
Proof.
  split.
  - rewrite <- (find_key_none u_id). unfold get_user_by_id, find_user.
    destruct (List.find _ users) as [u|]; [| tauto].
    split; [| discriminate]. intros H. now apply user_card_not_missing in H.
  - intros Hnd u Hu. unfold get_user_by_id, find_user.
    now rewrite (find_key_unique u_id users u Hnd Hu).
Qed.

(** X5: [get_product_by_id] answers "not found" exactly for the ids no
    product has, [check_stock] gives that same answer for exactly the same
    ids, and with unique ids the id of any product gets that product's
    card. *)
Theorem get_product_by_id_spec (product_id quantity : Z) :
  (get_product_by_id products product_id
   = "Product with ID " +:+ Text.of_Z product_id +:+ " not found."
   <-> forall p, In p products -> p_id p <> product_id)
  /\ (check_stock products product_id quantity
      = "Product with ID " +:+ Text.of_Z product_id +:+ " not found."
      <-> forall p, In p products -> p_id p <> product_id)
  /\ (List.NoDup (map p_id products) ->
      forall p, In p products ->
        get_product_by_id products (p_id p) = product_card p).
Proof.
  split; [| split].
  - rewrite <- (find_key_none p_id). unfold get_product_by_id, find_product.
    destruct (List.find _ products) as [p|]; [| tauto].
    split; [| discriminate]. intros H. now apply product_card_not_missing in H.
  - rewrite <- (find_key_none p_id). unfold check_stock, find_product.
    destruct (List.find _ products) as [p|]; [| tauto].
    split; [| discriminate].
    destruct (p_stock p >=? quantity); rewrite !append_cons;
      intros H; discriminate H.
  - intros Hnd p Hp. unfold get_product_by_id, find_product.
    now rewrite (find_key_unique p_id products p Hnd Hp).
Qed.

Lemma get_user_by_name_matching (name : string) :
  List.filter (name_matches name) users <> [] ->
  get_user_by_name users name
  = ("Found " +:+ Text.of_len (List.filter (name_matches name) users)
     +:+ " user(s):" +:+ nl +:+ nl)
    +:+ String.concat "" (map user_line (List.filter (name_matches name) users)).
Proof.
  intros Hsome. unfold get_user_by_name.
  change (fun u => Text.contains (Text.lower name) (Text.lower (u_name u)))
    with (name_matches name).
  destruct (List.filter (name_matches name) users) as [|u rest] eqn:Hf;
    [contradiction |].
  apply fold_left_append.
Qed.

Lemma get_user_by_name_no_match (name : string) :
  List.filter (name_matches name) users = [] ->
  get_user_by_name users name = "No users found matching '" +:+ name +:+ "'.".
Proof.
  intros Hnone. unfold get_user_by_name.
  change (fun u => Text.contains (Text.lower name) (Text.lower (u_name u)))
    with (name_matches name).
  now rewrite Hnone.
Qed.

Lemma search_products_no_match (query : string) :
  List.filter (matches query) products = [] ->
  search_products products query
  = "No products found matching '" +:+ query +:+ "'.".
Proof.
  intros Hnone. unfold search_products.
  change (fun p => Text.contains (Text.lower query) (Text.lower (p_name p))
                   || Text.contains (Text.lower query) (Text.lower (p_category p)))
    with (matches query).
  now rewrite Hnone.
Qed.

Lemma filter_nil_iff {B} (f : B -> bool) (l : list B) :
  List.filter f l = [] <-> forall x, In x l -> f x = false.
Proof.
  split.
  - intros Hnil x Hx. destruct (f x) eqn:Hfx; [| reflexivity].
    assert (In x (List.filter f l)) as Hin by (apply filter_In; auto).
    rewrite Hnil in Hin. destruct Hin.
  - intros Hall. induction l as [|y l IH]; [reflexivity |].
    cbn [List.filter]. rewrite (Hall y (or_introl eq_refl)).
    apply IH. intros x Hx. apply Hall. now right.
Qed.

(** X6: [get_user_by_name] ignores the letter case of the name it is
    given: two names with the same lower-casing select the same users and,
    when there are any, produce the same text. *)
Theorem get_user_by_name_case (name1 name2 : string) :
  Text.lower name1 = Text.lower name2 ->
  List.filter (name_matches name1) users = List.filter (name_matches name2) users
  /\ (List.filter (name_matches name1) users <> [] ->
      get_user_by_name users name1 = get_user_by_name users name2).
Proof.
  intros Hlow.
  assert (List.filter (name_matches name1) users
          = List.filter (name_matches name2) users) as Hf.
  { apply filter_ext. intros u. unfold name_matches. now rewrite Hlow. }
  split; [exact Hf |]. intros Hsome.
  rewrite (get_user_by_name_matching name1 Hsome).
  rewrite Hf in Hsome. rewrite (get_user_by_name_matching name2 Hsome).
  now rewrite Hf.
Qed.

(** X7: [search_products] ignores the letter case of its query in the same
    way. *)
Theorem search_products_case (query1 query2 : string) :
  Text.lower query1 = Text.lower query2 ->
  List.filter (matches query1) products = List.filter (matches query2) products
  /\ (List.filter (matches query1) products <> [] ->
      search_products products query1 = search_products products query2).
Proof.
  intros Hlow.
  assert (List.filter (matches query1) products
          = List.filter (matches query2) products) as Hf.
  { apply filter_ext. intros p. unfold matches. now rewrite Hlow. }
  split; [exact Hf |]. intros Hsome.
  rewrite (search_products_matching products query1 Hsome).
  rewrite Hf in Hsome. rewrite (search_products_matching products query2 Hsome).
  now rewrite Hf.
Qed.

(** X8: the empty name makes [get_user_by_name] list every user of a
    non-empty table, in table order, after their count. *)
Theorem get_user_by_name_empty :
  users <> [] ->
  get_user_by_name users ""
  = ("Found " +:+ Text.of_len users +:+ " user(s):" +:+ nl +:+ nl)
    +:+ String.concat "" (map user_line users).
Proof.
  intros Hne.
  assert (List.filter (name_matches "") users = users) as Hf.
  { apply filter_all. intros u _. apply contains_empty. }
  rewrite get_user_by_name_matching; rewrite Hf; [reflexivity | exact Hne].
Qed.

(** X9: [search_products] answers "No products found" exactly when the
    lower-cased query occurs in no product's lower-cased name and in no
    product's lower-cased category. *)
Theorem search_products_none_iff (query : string) :
  search_products products query
  = "No products found matching '" +:+ query +:+ "'."
  <-> forall p, In p products ->
        ~ Text.substring_of (Text.lower query) (Text.lower (p_name p))
        /\ ~ Text.substring_of (Text.lower query) (Text.lower (p_category p)).
Proof.
  assert ((forall p, In p products ->
             ~ Text.substring_of (Text.lower query) (Text.lower (p_name p))
             /\ ~ Text.substring_of (Text.lower query) (Text.lower (p_category p)))
          <-> List.filter (matches query) products = []) as ->.
  { rewrite filter_nil_iff. unfold matches.
    split; intros H p Hp; specialize (H p Hp).
    - apply orb_false_iff. rewrite <- !not_true_iff_false, !contains_substring.
      exact H.
    - apply orb_false_iff in H.
      rewrite <- !not_true_iff_false, !contains_substring in H. exact H. }
  split; [| apply search_products_no_match].
  intros Htext.
  destruct (List.filter (matches query) products) as [|p rest] eqn:Hf;
    [reflexivity |].
  rewrite search_products_matching in Htext by (rewrite Hf; discriminate).
  rewrite !append_cons in Htext. discriminate Htext.
Qed.

(** X10: [get_user_by_name] answers "No users found" exactly when the
    lower-cased name occurs in no user's lower-cased name. *)
Theorem get_user_by_name_none_iff (name : string) :
  get_user_by_name users name = "No users found matching '" +:+ name +:+ "'."
  <-> forall u, In u users ->
        ~ Text.substring_of (Text.lower name) (Text.lower (u_name u)).
Proof.
  assert ((forall u, In u users ->
             ~ Text.substring_of (Text.lower name) (Text.lower (u_name u)))
          <-> List.filter (name_matches name) users = []) as ->.
  { rewrite filter_nil_iff. unfold name_matches.
    split; intros H u Hu; specialize (H u Hu).
    - now rewrite <- not_true_iff_false, contains_substring.
    - now rewrite <- not_true_iff_false, contains_substring in H. }
  split; [| apply get_user_by_name_no_match].
  intros Htext.
  destruct (List.filter (name_matches name) users) as [|u rest] eqn:Hf;
    [reflexivity |].
  rewrite get_user_by_name_matching in Htext by (rewrite Hf; discriminate).
  rewrite !append_cons in Htext. discriminate Htext.
Qed.

(** X11: [check_stock] is monotone in the quantity: once a quantity is
    reported as available, so is every smaller one, and once a quantity is
    reported as short, so is every larger one. *)
Theorem check_stock_monotone (product_id quantity quantity' : Z) (p : product) :
  find_product products product_id = Some p ->
  quantity' <= quantity ->
  (check_stock products product_id quantity = in_stock_text p quantity ->
   check_stock products product_id quantity' = in_stock_text p quantity')
  /\ (check_stock products product_id quantity' = short_stock_text p quantity' ->
      check_stock products product_id quantity = short_stock_text p quantity).
Proof.
  intros Hfind Hle.
  rewrite !(check_stock_known products _ _ p Hfind).
  pose proof (stock_texts_differ p quantity) as Hq.
  pose proof (stock_texts_differ p quantity') as Hq'.
  destruct (Z.leb_spec quantity (p_stock p)) as [Hs | Hs];
    destruct (Z.leb_spec quantity' (p_stock p)) as [Hs' | Hs'];
    split; intros H; try reflexivity; try lia.
  - now destruct Hq'.
  - symmetry in H. now destruct Hq.
Qed.

End DatabaseFurther.

(** ** DatabasePlugin: the inventory value on any table *)

Lemma float_of_int_raises (n : Z) (e : exn) :
  float_of_int n = Raise e -> e = OverflowError.
Proof.
  unfold float_of_int.
  destruct (binary_normalize prec emax n 0 false); intros H;
    try discriminate H; now inversion H.
Qed.

Section InventoryFurther.

Import DatabasePlugin.

Variable products : list product.

Lemma stock_value_outcome (p : product) :
  (forall x, float_of_int (p_stock p) = Ret x ->
             stock_value p = Ret (p_price p * x)%float)
  /\ (forall e, float_of_int (p_stock p) = Raise e -> stock_value p = Raise e).
Proof. unfold stock_value. split; intros ? ->; reflexivity. Qed.

Lemma stock_values_returns (ps : list product) :
  Forall (fun p => returns (float_of_int (p_stock p))) ps ->
  returns (stock_values ps).
Proof.
  induction 1 as [|p ps [x Hx] _ [vs IH]]; [now exists [] |].
  cbn [stock_values]. rewrite (proj1 (stock_value_outcome p) x Hx), IH.
  eexists. reflexivity.
Qed.

Lemma stock_values_raises (ps : list product) (e : exn) :
  stock_values ps = Raise e ->
  e = OverflowError
  /\ Exists (fun p => float_of_int (p_stock p) = Raise OverflowError) ps.
Proof.
  induction ps as [|p ps IH]; [discriminate |].
  cbn [stock_values]. unfold stock_value at 1.
  destruct (float_of_int (p_stock p)) as [x | e'] eqn:Hp; cbn.
  - destruct (stock_values ps) as [vs | e']; cbn; [discriminate |].
    intros H. inversion H; subst e'. destruct (IH eq_refl) as [-> Hex].
    split; [reflexivity | now right].
  - intros H. inversion H; subst e'.
    pose proof (float_of_int_raises _ _ Hp) as ->.
    split; [reflexivity | now left].
Qed.

(** The loop of the breakdown succeeds wherever the generator of the sum
    did, and adds one line per product. *)
Lemma breakdown_lines (ps : list product) (vs : list float) (start : string) :
  stock_values ps = Ret vs ->
  breakdown ps start
  = Ret (start +:+ String.concat "" (map breakdown_line (combine ps vs))).
Proof.
  revert vs start. induction ps as [|p ps IH]; intros vs start.
  - cbn. intros H. inversion H. cbn. now rewrite append_nil_r.
  - cbn [stock_values breakdown].
    destruct (stock_value p) as [v | e]; cbn; [| discriminate].
    destruct (stock_values ps) as [vs' | e] eqn:Hvs; cbn; [| discriminate].
    intros H. inversion H; subst vs.
    rewrite (IH vs' _ eq_refl). cbn [combine map].
    rewrite concat_empty_cons. unfold breakdown_line at 2.
    now rewrite !append_assoc.
Qed.

(** X12: [get_total_inventory_value] returns its report whenever every
    stock of the table converts to a float; [OverflowError] is the only
    exception it can raise, and it raises it only when some product's stock
    is too large to convert. *)
Theorem total_inventory_value_outcome :
  (Forall (fun p => returns (float_of_int (p_stock p))) products ->
   returns (get_total_inventory_value products))
  /\ (forall e,
        get_total_inventory_value products = Raise e ->
        e = OverflowError
        /\ Exists (fun p => float_of_int (p_stock p) = Raise OverflowError)
             products).
Proof.
  unfold get_total_inventory_value, get_total_inventory_value_with. split.
  - intros Hall. destruct (stock_values_returns products Hall) as [vs Hvs].
    rewrite Hvs. cbn. rewrite (breakdown_lines products vs _ Hvs). cbn.
    eexists. reflexivity.
  - intros e. destruct (stock_values products) as [vs | e'] eqn:Hvs; cbn.
    + rewrite (breakdown_lines products vs _ Hvs). cbn. discriminate.
    + intros H. inversion H; subst e'. now apply stock_values_raises.
Qed.


End InventoryFurther.

(** ** DatabasePlugin: the fixed tables *)

Lemma users_ids_unique : List.NoDup (map DatabasePlugin.u_id DatabasePlugin._users).
Proof. repeat constructor; cbn; intuition discriminate. Qed.

Lemma products_ids_unique :
  List.NoDup (map DatabasePlugin.p_id DatabasePlugin._products).
Proof. repeat constructor; cbn; intuition discriminate. Qed.

Lemma orders_ids_unique :
  List.NoDup (map DatabasePlugin.o_id DatabasePlugin._orders).
Proof. repeat constructor; cbn; intuition discriminate. Qed.

(** X14: the fixed tables keep the invariants the lookups lean on: ids are
    unique within each table, every order names an existing user and an
    existing product and has a positive quantity, so that no order of the
    fixed data is ever reported under "Unknown", and every product has a
    non-negative price and stock. *)
Theorem fixed_tables_invariants :
  List.NoDup (map DatabasePlugin.u_id DatabasePlugin._users)
  /\ List.NoDup (map DatabasePlugin.p_id DatabasePlugin._products)
  /\ List.NoDup (map DatabasePlugin.o_id DatabasePlugin._orders)
  /\ (forall o, In o DatabasePlugin._orders ->
        (exists u, DatabasePlugin.find_user DatabasePlugin._users
                     (DatabasePlugin.o_user_id o) = Some u)
        /\ (exists p, DatabasePlugin.find_product DatabasePlugin._products
                        (DatabasePlugin.o_product_id o) = Some p
                      /\ DatabasePlugin.order_line DatabasePlugin._products o
                         = "Order ID: " +:+ Text.of_Z (DatabasePlugin.o_id o)
                           +:+ ", Product: " +:+ DatabasePlugin.p_name p
                           +:+ ", Quantity: "
                           +:+ Text.of_Z (DatabasePlugin.o_quantity o)
                           +:+ ", Status: " +:+ DatabasePlugin.o_status o +:+ nl)
        /\ 0 < DatabasePlugin.o_quantity o)
  /\ (forall p, In p DatabasePlugin._products ->
        0 <= DatabasePlugin.p_stock p
        /\ PrimFloat.leb 0 (DatabasePlugin.p_price p) = true).
Proof.
  split; [exact users_ids_unique |]. split; [exact products_ids_unique |].
  split; [exact orders_ids_unique |]. split.
  - intros o Ho.
    repeat (destruct Ho as [<- | Ho];
            [split; [eexists; reflexivity
                    | split; [eexists; split; reflexivity | reflexivity]] |]).
    destruct Ho.
  - intros p Hp.
    repeat (destruct Hp as [<- | Hp]; [split; [cbn; lia | reflexivity] |]).
    destruct Hp.
Qed.

(** ** Examples for the database properties *)

Lemma get_user_by_id_spec_witness :
  List.NoDup (map DatabasePlugin.u_id DatabasePlugin._users)
  /\ DatabasePlugin.get_user_by_id DatabasePlugin._users 2
     = unlines ["User ID: 2"; "Name: Bob Smith"; "Email: bob@example.com";
                "Role: User"; "Active: True"]
  /\ DatabasePlugin.get_user_by_id DatabasePlugin._users 9
     = "User with ID 9 not found.".
Proof.
  destruct (get_user_by_id_spec DatabasePlugin._users 9) as [Hmissing Hcard].
  split; [exact users_ids_unique |]. split.
  - apply (Hcard users_ids_unique
             {| DatabasePlugin.u_id := 2; DatabasePlugin.u_name := "Bob Smith";
                DatabasePlugin.u_email := "bob@example.com";
                DatabasePlugin.u_role := "User";
                DatabasePlugin.u_active := true |}).
    cbn. tauto.
  - apply Hmissing. intros u Hu.
    repeat (destruct Hu as [<- | Hu]; [discriminate |]). destruct Hu.
Defined.

Lemma get_product_by_id_spec_witness :
  List.NoDup (map DatabasePlugin.p_id DatabasePlugin._products)
  /\ DatabasePlugin.get_product_by_id DatabasePlugin._products 102
     = unlines ["Product ID: 102"; "Name: Mouse"; "Price: $29.99";
                "Stock: 50 units"; "Category: Electronics"]
  /\ DatabasePlugin.get_product_by_id DatabasePlugin._products 7
     = "Product with ID 7 not found."
  /\ DatabasePlugin.check_stock DatabasePlugin._products 7 1
     = "Product with ID 7 not found.".
Proof.
  destruct (get_product_by_id_spec DatabasePlugin._products 7 1)
    as (Hmissing & Hstock & Hcard).
  assert (forall p, In p DatabasePlugin._products -> DatabasePlugin.p_id p <> 7)
    as Hno.
  { intros p Hp. repeat (destruct Hp as [<- | Hp]; [discriminate |]). destruct Hp. }
  split; [exact products_ids_unique |]. split.
  - transitivity
      (product_card
         {| DatabasePlugin.p_id := 102; DatabasePlugin.p_name := "Mouse";
            DatabasePlugin.p_price := 29.99; DatabasePlugin.p_stock := 50;
            DatabasePlugin.p_category := "Electronics" |}).
    + refine (Hcard products_ids_unique
                {| DatabasePlugin.p_id := 102; DatabasePlugin.p_name := "Mouse";
                   DatabasePlugin.p_price := 29.99; DatabasePlugin.p_stock := 50;
                   DatabasePlugin.p_category := "Electronics" |} _).
      cbn. tauto.
    + vm_compute. reflexivity.
  - split; [apply Hmissing | apply Hstock]; exact Hno.
Defined.

Lemma get_user_by_name_case_witness :
  Text.lower "ALICE" = Text.lower "alice"
  /\ List.filter (name_matches "ALICE") DatabasePlugin._users <> []
  /\ DatabasePlugin.get_user_by_name DatabasePlugin._users "ALICE"
     = DatabasePlugin.get_user_by_name DatabasePlugin._users "alice"
  /\ DatabasePlugin.get_user_by_name DatabasePlugin._users "alice"
     = unlines ["Found 1 user(s):"; "";
                "ID: 1, Name: Alice Johnson, Email: alice@example.com, Role: Admin";
                ""].
Proof.
  destruct (get_user_by_name_case DatabasePlugin._users "ALICE" "alice" eq_refl)
    as [_ Hsame].
  split; [reflexivity |]. split; [discriminate |]. split.
  - apply Hsame. discriminate.
  - reflexivity.
Defined.

Lemma search_products_case_witness :
  Text.lower "DeSk" = Text.lower "desk"
  /\ List.filter (matches "DeSk") DatabasePlugin._products <> []
  /\ DatabasePlugin.search_products DatabasePlugin._products "DeSk"
     = DatabasePlugin.search_products DatabasePlugin._products "desk".
Proof.
  destruct (search_products_case DatabasePlugin._products "DeSk" "desk" eq_refl)
    as [_ Hsame].
  split; [reflexivity |]. split; [discriminate |].
  apply Hsame. discriminate.
Defined.

Lemma get_user_by_name_empty_witness :
  DatabasePlugin._users <> []
  /\ DatabasePlugin.get_user_by_name DatabasePlugin._users ""
     = unlines ["Found 5 user(s):"; "";
                "ID: 1, Name: Alice Johnson, Email: alice@example.com, Role: Admin";
                "ID: 2, Name: Bob Smith, Email: bob@example.com, Role: User";
                "ID: 3, Name: Charlie Brown, Email: charlie@example.com, Role: User";
                "ID: 4, Name: Diana Prince, Email: diana@example.com, Role: Manager";
                "ID: 5, Name: Eve Davis, Email: eve@example.com, Role: User";
                ""].
Proof.
  assert (DatabasePlugin._users <> []) as Hne by discriminate.
  split; [exact Hne |].
  rewrite (get_user_by_name_empty DatabasePlugin._users Hne). reflexivity.
Defined.

Lemma search_products_none_iff_witness :
  (forall p, In p DatabasePlugin._products ->
     ~ Text.substring_of (Text.lower "Sofa") (Text.lower (DatabasePlugin.p_name p))
     /\ ~ Text.substring_of (Text.lower "Sofa")
            (Text.lower (DatabasePlugin.p_category p)))
  /\ DatabasePlugin.search_products DatabasePlugin._products "Sofa"
     = "No products found matching 'Sofa'.".
Proof.
  assert (forall p, In p DatabasePlugin._products ->
     ~ Text.substring_of (Text.lower "Sofa") (Text.lower (DatabasePlugin.p_name p))
     /\ ~ Text.substring_of (Text.lower "Sofa")
            (Text.lower (DatabasePlugin.p_category p))) as Hno.
  { intros p Hp.
    repeat (destruct Hp as [<- | Hp];
            [split; intros H; apply contains_substring in H; discriminate H |]).
    destruct Hp. }
  split; [exact Hno |].
  apply (search_products_none_iff DatabasePlugin._products "Sofa"). exact Hno.
Defined.

Lemma get_user_by_name_none_iff_witness :
  (forall u, In u DatabasePlugin._users ->
     ~ Text.substring_of (Text.lower "Zed") (Text.lower (DatabasePlugin.u_name u)))
  /\ DatabasePlugin.get_user_by_name DatabasePlugin._users "Zed"
     = "No users found matching 'Zed'.".
Proof.
  assert (forall u, In u DatabasePlugin._users ->
     ~ Text.substring_of (Text.lower "Zed") (Text.lower (DatabasePlugin.u_name u)))
    as Hno.
  { intros u Hu.
    repeat (destruct Hu as [<- | Hu];
            [intros H; apply contains_substring in H; discriminate H |]).
    destruct Hu. }
  split; [exact Hno |].
  apply (get_user_by_name_none_iff DatabasePlugin._users "Zed"). exact Hno.
Defined.

Lemma check_stock_monotone_witness :
  let mouse :=
    {| DatabasePlugin.p_id := 102; DatabasePlugin.p_name := "Mouse";
       DatabasePlugin.p_price := 29.99; DatabasePlugin.p_stock := 50;
       DatabasePlugin.p_category := "Electronics" |} in
  DatabasePlugin.find_product DatabasePlugin._products 102 = Some mouse
  /\ 20 <= 50
  /\ DatabasePlugin.check_stock DatabasePlugin._products 102 50
     = in_stock_text mouse 50
  /\ DatabasePlugin.check_stock DatabasePlugin._products 102 20
     = in_stock_text mouse 20
  /\ 51 <= 80
  /\ DatabasePlugin.check_stock DatabasePlugin._products 102 51
     = short_stock_text mouse 51
  /\ DatabasePlugin.check_stock DatabasePlugin._products 102 80
     = short_stock_text mouse 80.
Proof.
  intros mouse.
  assert (DatabasePlugin.find_product DatabasePlugin._products 102 = Some mouse)
    as Hfind by reflexivity.
  destruct (check_stock_monotone DatabasePlugin._products 102 50 20 mouse Hfind)
    as [Hdown _]; [lia |].
  destruct (check_stock_monotone DatabasePlugin._products 102 80 51 mouse Hfind)
    as [_ Hup]; [lia |].
  split; [exact Hfind |]. split; [lia |]. split; [reflexivity |].
  split; [apply Hdown; reflexivity |]. split; [lia |].
  split; [reflexivity | apply Hup; reflexivity].
Defined.

Lemma total_inventory_value_outcome_witness :
  Forall (fun p => returns (float_of_int (DatabasePlugin.p_stock p))) two_products
  /\ returns (DatabasePlugin.get_total_inventory_value two_products)
  /\ DatabasePlugin.get_total_inventory_value [oversized_product]
     = Raise OverflowError
  /\ Exists (fun p => float_of_int (DatabasePlugin.p_stock p) = Raise OverflowError)
       [oversized_product].
Proof.
  destruct (total_inventory_value_outcome two_products) as [Hret _].
  destruct (total_inventory_value_outcome [oversized_product]) as [_ Hraise].
  assert (Forall (fun p => returns (float_of_int (DatabasePlugin.p_stock p)))
            two_products) as Hall.
  { repeat constructor; eexists; reflexivity. }
  assert (DatabasePlugin.get_total_inventory_value [oversized_product]
          = Raise OverflowError) as Hover by reflexivity.
  split; [exact Hall |]. split; [exact (Hret Hall) |].
  split; [exact Hover | exact (proj2 (Hraise _ Hover))].
Defined.


(** ** WeatherPlugin: the random source as the methods use it *)

Lemma randint_advance (a b : Z) (g : Random.rng) :
  snd (Random.randint a b g) = advance 1 g.
Proof. reflexivity. Qed.

Lemma choice_advance (seq : list string) (g : Random.rng) :
  snd (Random.choice seq g) = advance 1 g.
Proof. reflexivity. Qed.

Lemma advance_advance (n m : nat) (g : Random.rng) :
  advance n (advance m g) = advance (n + m) g.
Proof. unfold advance. cbn. f_equal. lia. Qed.

Lemma advance_zero (g : Random.rng) : advance 0 g = g.
Proof. now destruct g. Qed.

Lemma advance_neq (n : nat) (g : Random.rng) : (0 < n)%nat -> advance n g <> g.
Proof.
  intros Hn H. apply (f_equal Random.cursor) in H. cbn in H. lia.
Qed.

Lemma forecast_conditions_nonempty : WeatherPlugin.forecast_conditions <> [].
Proof. discriminate. Qed.

Section WeatherFurther.

Import WeatherPlugin.

Variable weather_data : gmap string weather.

Lemma get_current_weather_known (city : string) (g : Random.rng) (w : weather) :
  weather_data !! Text.lower city = Some w ->
  get_current_weather weather_data city g
  = (weather_report city (temp w) (condition w) (humidity w), g).
Proof. intros Hw. unfold get_current_weather. now rewrite Hw. Qed.

Lemma get_current_weather_draws (city : string) (g : Random.rng) :
  weather_data !! Text.lower city = None ->
  snd (get_current_weather weather_data city g) = advance 3 g.
Proof. intros Hnone. unfold get_current_weather. now rewrite Hnone. Qed.

Lemma forecast_day_step (forecast : string) (g : Random.rng) (day : Z) :
  exists h l c,
    forecast_day (forecast, g) day
    = (forecast +:+ day_line day h l c, advance 3 g)
    /\ day_ok h l c.
Proof.
  unfold forecast_day.
  pose proof (randint_range 65 85 g ltac:(lia)) as Hh.
  pose proof (randint_advance 65 85 g) as Hg1.
  destruct (Random.randint 65 85 g) as [h g1]. cbn [fst snd] in Hh, Hg1. subst g1.
  pose proof (randint_range 50 65 (advance 1 g) ltac:(lia)) as Hl.
  pose proof (randint_advance 50 65 (advance 1 g)) as Hg2.
  destruct (Random.randint 50 65 (advance 1 g)) as [l g2].
  cbn [fst snd] in Hl, Hg2. subst g2.
  pose proof (choice_in forecast_conditions (advance 1 (advance 1 g))
                forecast_conditions_nonempty) as Hc.
  pose proof (choice_advance forecast_conditions (advance 1 (advance 1 g))) as Hg3.
  destruct (Random.choice forecast_conditions (advance 1 (advance 1 g))) as [c g3].
  cbn [fst snd] in Hc, Hg3. subst g3.
  exists h, l, c. rewrite !advance_advance. split; [reflexivity |].
  unfold day_ok. tauto.
Qed.

(** X15: whatever the city and the state of the random source,
    [get_forecast] returns the heading and exactly three day lines,
    numbered 1 to 3, each with a high in [65,85], a low in [50,65], hence
    never above the high, and one of the five forecast conditions; it takes
    nine draws and never looks at the weather table. *)
Theorem get_forecast_spec (city : string) (g : Random.rng) :
  exists h1 l1 c1 h2 l2 c2 h3 l3 c3,
    get_forecast city g
    = (("3-Day Forecast for " +:+ Text.title city +:+ ":" +:+ nl)
       +:+ day_line 1 h1 l1 c1 +:+ day_line 2 h2 l2 c2 +:+ day_line 3 h3 l3 c3,
       advance 9 g)
    /\ day_ok h1 l1 c1 /\ day_ok h2 l2 c2 /\ day_ok h3 l3 c3
    /\ l1 <= h1 /\ l2 <= h2 /\ l3 <= h3.
Proof.
  unfold get_forecast. cbn [fold_left].
  destruct (forecast_day_step
              ("3-Day Forecast for " +:+ Text.title city +:+ ":" +:+ nl) g 1)
    as (h1 & l1 & c1 & -> & H1).
  destruct (forecast_day_step
              (("3-Day Forecast for " +:+ Text.title city +:+ ":" +:+ nl)
               +:+ day_line 1 h1 l1 c1) (advance 3 g) 2)
    as (h2 & l2 & c2 & -> & H2).
  destruct (forecast_day_step
              ((("3-Day Forecast for " +:+ Text.title city +:+ ":" +:+ nl)
                +:+ day_line 1 h1 l1 c1) +:+ day_line 2 h2 l2 c2)
              (advance 3 (advance 3 g)) 3)
    as (h3 & l3 & c3 & -> & H3).
  exists h1, l1, c1, h2, l2, c2, h3, l3, c3.
  rewrite !advance_advance, !append_assoc.
  unfold day_ok in *. repeat split; try tauto; lia.
Qed.

(** X16: [compare_weather] takes three draws for each of its two cities
    that the table lacks and none for the others; for two cities the table
    has, it returns their two stored reports around "vs" and leaves the
    random source as it was. *)
Theorem compare_weather_spec (city1 city2 : string) (g : Random.rng) :
  snd (compare_weather weather_data city1 city2 g)
  = advance (3 * unknown_count weather_data city1 city2) g
  /\ (forall w1 w2,
        weather_data !! Text.lower city1 = Some w1 ->
        weather_data !! Text.lower city2 = Some w2 ->
        compare_weather weather_data city1 city2 g
        = ("Weather Comparison:" +:+ nl +:+ nl
           +:+ weather_report city1 (temp w1) (condition w1) (humidity w1)
           +:+ nl +:+ nl +:+ "vs" +:+ nl +:+ nl
           +:+ weather_report city2 (temp w2) (condition w2) (humidity w2), g)).
Proof.
  split.
  - unfold compare_weather, unknown_count.
    destruct (weather_data !! Text.lower city1) as [w1|] eqn:H1.
    + rewrite (get_current_weather_known city1 g w1 H1).
      destruct (weather_data !! Text.lower city2) as [w2|] eqn:H2.
      * rewrite (get_current_weather_known city2 g w2 H2). cbn.
        now rewrite advance_zero.
      * pose proof (get_current_weather_draws city2 g H2) as Hg.
        destruct (get_current_weather weather_data city2 g) as [t2 g2].
        cbn in *. now subst g2.
    + pose proof (get_current_weather_draws city1 g H1) as Hg.
      destruct (get_current_weather weather_data city1 g) as [t1 g1].
      cbn [snd] in Hg. subst g1.
      destruct (weather_data !! Text.lower city2) as [w2|] eqn:H2.
      * rewrite (get_current_weather_known city2 _ w2 H2). reflexivity.
      * pose proof (get_current_weather_draws city2 (advance 3 g) H2) as Hg.
        destruct (get_current_weather weather_data city2 (advance 3 g))
          as [t2 g2].
        cbn [snd] in *. subst g2. now rewrite advance_advance.
  - intros w1 w2 H1 H2. unfold compare_weather.
    rewrite (get_current_weather_known city1 g w1 H1).
    now rewrite (get_current_weather_known city2 g w2 H2).
Qed.



(** X18: [should_bring_umbrella] and [get_current_weather] agree on which
    cities are known: the first returns its "not available" text exactly
    for the cities the table lacks, which are exactly the cities for which
    the second draws from the random source. *)
Theorem known_cities_agree (city : string) (g : Random.rng) :
  (should_bring_umbrella weather_data city = unknown_city_text city
   <-> weather_data !! Text.lower city = None)
  /\ (snd (get_current_weather weather_data city g) <> g
      <-> weather_data !! Text.lower city = None).
Proof.
  split.
  - unfold should_bring_umbrella, unknown_city_text.
    destruct (weather_data !! Text.lower city) as [w|]; [| tauto].
    split; [| discriminate].
    destruct (Text.contains "rain" (Text.lower (condition w))
              || Text.contains "storm" (Text.lower (condition w)));
      rewrite !append_cons; intros H; discriminate H.
  - destruct (weather_data !! Text.lower city) as [w|] eqn:Hw.
    + rewrite (get_current_weather_known city g w Hw). cbn.
      split; [congruence | discriminate].
    + rewrite (get_current_weather_draws city g Hw).
      split; [reflexivity |]. intros _. apply advance_neq. lia.
Qed.

(** X19: the ranges of the made-up weather are tight: for a city the table
    lacks, every temperature of [50,90], every condition of the list and
    every humidity of [40,90] is reported for some outcome of the three
    draws. *)
Theorem synthesized_weather_onto (city : string) (t h : Z) (c : string)
    (cursor : nat) :
  weather_data !! Text.lower city = None ->
  50 <= t <= 90 -> In c conditions -> 40 <= h <= 90 ->
  exists draws,
    fst (get_current_weather weather_data city
           {| Random.draws := draws; Random.cursor := cursor |})
    = weather_report city t c h.
Proof.
  intros Hnone Ht Hc Hh.
  apply (In_nth _ _ "") in Hc as (i & Hi & Hnth).
  change (List.length conditions) with 4%nat in Hi.
  exists (fun k => if (k =? cursor)%nat then Z.to_N (t - 50)
                   else if (k =? S cursor)%nat then N.of_nat i
                   else Z.to_N (h - 40)).
  unfold get_current_weather. rewrite Hnone.
  unfold Random.randint, Random.choice, Random.randbelow.
  cbn [Random.draws Random.cursor fst snd].
  assert ((S cursor =? cursor)%nat = false) as E1 by (apply Nat.eqb_neq; lia).
  assert ((S (S cursor) =? cursor)%nat = false) as E2 by (apply Nat.eqb_neq; lia).
  assert ((S (S cursor) =? S cursor)%nat = false) as E3
    by (apply Nat.eqb_neq; lia).
  rewrite !Nat.eqb_refl, E1, E2, E3.
  change (List.length conditions) with 4%nat.
  rewrite !Z2N.id by lia. rewrite nat_N_Z.
  rewrite !Z.mod_small by lia.
  rewrite Nat2Z.id, Hnth. f_equal; lia.
Qed.

(** X21: a record filed under a key that is not its own lower-casing is
    never served: [get_current_weather] and [should_bring_umbrella] behave
    as if the table did not have it. *)
Theorem mixed_case_key_unreachable (key city : string) (g : Random.rng) :
  Text.lower key <> key ->
  get_current_weather weather_data city g
  = get_current_weather (delete key weather_data) city g
  /\ should_bring_umbrella weather_data city
     = should_bring_umbrella (delete key weather_data) city.
Proof.
  intros Hkey.
  assert (key <> Text.lower city) as Hne.
  { intros ->. now rewrite lower_idempotent in Hkey. }
  unfold get_current_weather, should_bring_umbrella.
  now rewrite (lookup_delete_ne weather_data key (Text.lower city) Hne).
Qed.

End WeatherFurther.

(** X20: every key of the fixed weather table is its own lower-casing, so
    each stored record is served, untouched by the random source, to the
    city named by its key; and every stored humidity is a percentage. *)
Theorem weather_table_reachable (key : string) (w : WeatherPlugin.weather)
    (g : Random.rng) :
  WeatherPlugin._weather_data !! key = Some w ->
  Text.lower key = key
  /\ WeatherPlugin.get_current_weather WeatherPlugin._weather_data key g
     = (WeatherPlugin.weather_report key (WeatherPlugin.temp w)
          (WeatherPlugin.condition w) (WeatherPlugin.humidity w), g)
  /\ 0 <= WeatherPlugin.humidity w <= 100.
Proof.
  intros Hw.
  assert (Text.lower key = key /\ 0 <= WeatherPlugin.humidity w <= 100)
    as [Hkey Hhum].
  { unfold WeatherPlugin._weather_data in Hw.
    apply elem_of_list_to_map_2 in Hw.
    repeat (apply elem_of_cons in Hw as [Hw | Hw];
            [inversion Hw; subst; split; [reflexivity | cbn; lia] |]).
    now apply elem_of_nil in Hw. }
  split; [exact Hkey |]. split; [| exact Hhum].
  apply get_current_weather_known. now rewrite Hkey.
Qed.

(** ** Examples for the weather properties *)

Example get_forecast_sample :
  fst (WeatherPlugin.get_forecast "new york" sample_rng)
  = unlines ["3-Day Forecast for New York:";
             "Day 1: High 70°F, Low 60°F - Stormy";
             "Day 2: High 76°F, Low 59°F - Sunny";
             "Day 3: High 82°F, Low 58°F - Cloudy";
             ""].
Proof. vm_compute. reflexivity. Qed.

Lemma compare_weather_spec_witness :
  WeatherPlugin._weather_data !! Text.lower "London"
  = Some {| WeatherPlugin.temp := 59; WeatherPlugin.condition := "Rainy";
            WeatherPlugin.humidity := 80 |}
  /\ WeatherPlugin._weather_data !! Text.lower "Paris"
     = Some {| WeatherPlugin.temp := 64; WeatherPlugin.condition := "Cloudy";
               WeatherPlugin.humidity := 70 |}
  /\ WeatherPlugin.compare_weather WeatherPlugin._weather_data "London" "Paris"
       sample_rng
     = (unlines ["Weather Comparison:"; "";
                 "Weather in London:"; "Temperature: 59°F";
                 "Condition: Rainy"; "Humidity: 80%"; "";
                 "vs"; "";
                 "Weather in Paris:"; "Temperature: 64°F";
                 "Condition: Cloudy"; "Humidity: 70%"], sample_rng)
  /\ snd (WeatherPlugin.compare_weather WeatherPlugin._weather_data
            "Atlantis" "El Dorado" sample_rng)
     = advance 6 sample_rng.
Proof.
  destruct (compare_weather_spec WeatherPlugin._weather_data "London" "Paris"
              sample_rng) as [_ Hknown].
  destruct (compare_weather_spec WeatherPlugin._weather_data "Atlantis"
              "El Dorado" sample_rng) as [Hdraws _].
  split; [reflexivity |]. split; [reflexivity |]. split.
  - rewrite (Hknown _ _ eq_refl eq_refl). reflexivity.
  - rewrite Hdraws. reflexivity.
Defined.


Lemma known_cities_agree_witness :
  WeatherPlugin._weather_data !! Text.lower "Atlantis" = None
  /\ WeatherPlugin.should_bring_umbrella WeatherPlugin._weather_data "Atlantis"
     = unknown_city_text "Atlantis"
  /\ snd (WeatherPlugin.get_current_weather WeatherPlugin._weather_data
            "Atlantis" sample_rng) <> sample_rng.
Proof.
  destruct (known_cities_agree WeatherPlugin._weather_data "Atlantis" sample_rng)
    as [Humbrella Hdraws].
  split; [reflexivity |].
  split; [apply Humbrella | apply Hdraws]; reflexivity.
Defined.

Lemma synthesized_weather_onto_witness :
  WeatherPlugin._weather_data !! Text.lower "Atlantis" = None
  /\ 50 <= 90 <= 90
  /\ In "Partly Cloudy" WeatherPlugin.conditions
  /\ 40 <= 40 <= 90
  /\ exists draws,
       fst (WeatherPlugin.get_current_weather WeatherPlugin._weather_data
              "Atlantis" {| Random.draws := draws; Random.cursor := 7 |})
       = WeatherPlugin.weather_report "Atlantis" 90 "Partly Cloudy" 40.
Proof.
  assert (In "Partly Cloudy" WeatherPlugin.conditions) as Hc by (cbn; tauto).
  split; [reflexivity |]. split; [lia |]. split; [exact Hc |]. split; [lia |].
  apply (synthesized_weather_onto WeatherPlugin._weather_data "Atlantis" 90 40
           "Partly Cloudy" 7 eq_refl); [lia | exact Hc | lia].
Defined.

Lemma weather_table_reachable_witness :
  WeatherPlugin._weather_data !! "dubai"
  = Some {| WeatherPlugin.temp := 95; WeatherPlugin.condition := "Hot and Sunny";
            WeatherPlugin.humidity := 45 |}
  /\ Text.lower "dubai" = "dubai"
  /\ WeatherPlugin.get_current_weather WeatherPlugin._weather_data "dubai"
       sample_rng
     = (unlines ["Weather in Dubai:"; "Temperature: 95°F";
                 "Condition: Hot and Sunny"; "Humidity: 45%"], sample_rng).
Proof.
  destruct (weather_table_reachable "dubai"
              {| WeatherPlugin.temp := 95;
                 WeatherPlugin.condition := "Hot and Sunny";
                 WeatherPlugin.humidity := 45 |} sample_rng eq_refl)
    as (Hkey & Hserved & _).
  split; [reflexivity |]. split; [exact Hkey |].
  rewrite Hserved. reflexivity.
Defined.

Lemma mixed_case_key_unreachable_witness :
  Text.lower "Oslo" <> "Oslo"
  /\ capitalised_table !! "Oslo"
     = Some {| WeatherPlugin.temp := 41; WeatherPlugin.condition := "Snowy";
               WeatherPlugin.humidity := 75 |}
  /\ WeatherPlugin.get_current_weather capitalised_table "Oslo" sample_rng
     = WeatherPlugin.get_current_weather (delete "Oslo" capitalised_table)
         "Oslo" sample_rng
  /\ WeatherPlugin.should_bring_umbrella capitalised_table "Oslo"
     = WeatherPlugin.should_bring_umbrella (delete "Oslo" capitalised_table)
         "Oslo"
  /\ WeatherPlugin.should_bring_umbrella capitalised_table "Oslo"
     = unknown_city_text "Oslo".
Proof.
  assert (Text.lower "Oslo" <> "Oslo") as Hkey by discriminate.
  destruct (mixed_case_key_unreachable capitalised_table "Oslo" "Oslo"
              sample_rng Hkey) as [Hnow Humbrella].
  split; [exact Hkey |]. split; [reflexivity |]. split; [exact Hnow |].
  split; [exact Humbrella | reflexivity].
Defined.
